(** * search-v2-api: RBAC predicate synthesis and the per-user permission cache

    A shallow embedding of

    - [pkg/resolver/rbacHelper.go]: the functions that turn a user's
      permission snapshot into a goqu WHERE expression, and
    - the [rbac] user cache ([GetUserData] and the refresh functions of
      [userData]),

    together with the properties of those functions.

    Go maps are finite maps ([gmap]); a [range] over a map visits the
    entries in an order Go leaves unspecified, which the model makes an
    explicit argument wherever a result depends on it.  Locks are not
    modelled: every function below is one sequential run. *)

From Stdlib Require Import ZArith String Ascii List Bool Lia.
From stdpp Require Import base option list gmap strings sorting.

Local Open Scope string_scope.
Local Open Scope list_scope.

(** ** goqu expressions

    The part of [github.com/doug-martin/goqu/v9] the resolver uses.  goqu
    expressions are values; SQL text is produced from them later. *)
Module goqu.

Inductive ExpressionListType : Set := AndType | OrType.

#[warnings="-register-all"]
Inductive Expression : Type :=
| Nil                                               (* a nil interface value; rendered NULL *)
| Str (s : string)                                  (* a Go string argument; rendered as a quoted literal *)
| C (col : string)                                  (* goqu.C(col) *)
| L (sql : string) (args : list Expression)         (* goqu.L(sql, args...) and goqu.Literal *)
| List (op : ExpressionListType) (args : list Expression)   (* exp.ExpressionList *)
| Eq (lhs rhs : Expression)                         (* lhs.Eq(rhs) *)
| IsNotTrue (e : Expression)                        (* e.IsNotTrue() *)
| Any (e : Expression)                              (* goqu.Any(e) *)
| Select (table : string) (sel cond : Expression).  (* goqu.From(table).Select(sel).Where(cond) *)

(** [ExpressionList.IsEmpty]: the list has no argument. *)
Definition IsEmpty (e : Expression) : bool :=
  match e with
  | List _ [] => true
  | _ => false
  end.

(** [exp.NewExpressionList]: arguments that are empty expression lists
    are left out; every other argument (a nil interface included) is
    kept. *)
Definition NewExpressionList (op : ExpressionListType) (exprs : list Expression) : Expression :=
  List op (List.filter (fun e => negb (IsEmpty e)) exprs).

Definition And (exprs : list Expression) : Expression := NewExpressionList AndType exprs.
Definition Or (exprs : list Expression) : Expression := NewExpressionList OrType exprs.

Definition Literal (sql : string) : Expression := L sql [].

(** *** What an expression selects

    The rows of the search table carry a JSONB column [data] (here: its
    string-valued top-level keys) and a column [cluster].  The lookup
    tables [lookup_<uid>] have one row per [type], holding a text array
    [resList]. *)
Record Row : Type := mkRow { data : gmap string string; cluster : string }.

Definition DB : Type := gmap string (gmap string (list string)).

Definition resList_of (db : DB) (table type : string) : option (list string) :=
  db !! table ≫= (fun t => t !! type).

(** The SQL conditions the resolver writes with [goqu.L]; a condition
    whose value is NULL selects no row, like a false one.
    - [data ? key] and [NOT(data ? key)]: [data] has (has not) the key;
    - [data->field ? v]: the field is the string [v];
    - [data->field ?| (SELECT resList FROM table WHERE type = g)]: the
      field is one of the strings of that row's [resList]. *)
Definition holdsL (db : DB) (row : Row) (sql : string) (args : list Expression) : bool :=
  match args with
  | [C col; L op []; Str key] =>
      if (col =? "data") && (op =? "?") then
        if sql =? "???" then bool_decide (is_Some (data row !! key))
        else if sql =? "NOT(???)" then negb (bool_decide (is_Some (data row !! key)))
        else false
      else false
  | [L acc [Str field]; L op []; Str v] =>
      (sql =? "???") && (acc =? "data->?") && (op =? "?")
      && bool_decide (data row !! field = Some v)
  | [L acc [Str field]; L op []; Select table (L sel []) (Eq (C col) (Str g))] =>
      (sql =? "???") && (acc =? "data->?") && (op =? "?|")
      && (sel =? "resList") && (col =? "type")
      && match data row !! field, resList_of db table g with
         | Some v, Some l => bool_decide (v ∈ l)
         | _, _ => false
         end
  | _ => false
  end.

(** The value of an expression on a row: [None] for an expression that
    renders no SQL at all (an empty expression list; goqu writes nothing
    for it and skips it inside a list), otherwise whether the row
    satisfies the rendered condition. *)
Fixpoint denote (db : DB) (row : Row) (e : Expression) : option bool :=
  match e with
  | Nil => Some false
  | L sql args => Some (holdsL db row sql args)
  | List op args =>
      let fix values (es : list Expression) : list bool :=
        match es with
        | [] => []
        | e' :: es' =>
            match denote db row e' with
            | Some b => b :: values es'
            | None => values es'
            end
        end in
      match values args with
      | [] => None
      | vs =>
          Some match op with
               | AndType => forallb (fun b => b) vs
               | OrType => existsb (fun b => b) vs
               end
      end
  | IsNotTrue e' => Some (negb (default false (denote db row e')))
  | Eq (C col) (Any (Select table (L sel []) (Eq (C tcol) (Str g)))) =>
      Some ((col =? "cluster") && (sel =? "unnest(resList)") && (tcol =? "type")
            && match resList_of db table g with
               | Some l => bool_decide (cluster row ∈ l)
               | None => false
               end)
  | _ => Some false
  end.

(** The values of the arguments of a list that render some SQL. *)
Definition values (db : DB) (row : Row) (es : list Expression) : list bool :=
  omap (denote db row) es.

(** An expression used as one of the conditions of a conjunction, or as
    the WHERE clause itself: an expression that renders nothing restricts
    nothing. *)
Definition asConjunct (db : DB) (row : Row) (e : Expression) : bool :=
  default true (denote db row e).

(** An expression used as one of the alternatives of a disjunction: an
    expression that renders nothing selects nothing. *)
Definition asDisjunct (db : DB) (row : Row) (e : Expression) : bool :=
  default false (denote db row e).

(** goqu has no constant clauses.  An always-true expression is one that
    restricts no row where it is a condition; an always-false expression
    is one through which no row is selected where it is an alternative. *)
Definition alwaysTrue (e : Expression) : Prop :=
  forall db row, asConjunct db row e = true.

Definition alwaysFalse (e : Expression) : Prop :=
  forall db row, asDisjunct db row e = false.

(** *** Facts about expression lists *)

Lemma denote_List db row op args :
  denote db row (List op args) =
  match values db row args with
  | [] => None
  | vs =>
      Some match op with
           | AndType => forallb (fun b => b) vs
           | OrType => existsb (fun b => b) vs
           end
  end.
Proof.
  cbn [denote].
  match goal with
  | |- match ?f args with _ => _ end = _ => assert (Hv : f args = values db row args)
  end.
  { unfold values. induction args as [|e es IH]; [reflexivity|].
    cbn [omap list_omap]. destruct (denote db row e); rewrite IH; reflexivity. }
  rewrite Hv. reflexivity.
Qed.

Lemma IsEmpty_denote db row e : IsEmpty e = true -> denote db row e = None.
Proof. destruct e as [| | | |op [|a args]| | | |]; try discriminate. reflexivity. Qed.

Lemma values_cons db row e es :
  values db row (e :: es) =
  match denote db row e with
  | Some b => b :: values db row es
  | None => values db row es
  end.
Proof. reflexivity. Qed.

Lemma values_app db row es1 es2 :
  values db row (es1 ++ es2) = values db row es1 ++ values db row es2.
Proof.
  induction es1 as [|e es IH]; [reflexivity|].
  rewrite <- List.app_comm_cons, !values_cons, IH.
  destruct (denote db row e); reflexivity.
Qed.

Lemma values_filter_nonempty db row es :
  values db row (List.filter (fun e => negb (IsEmpty e)) es) = values db row es.
Proof.
  induction es as [|e es IH]; [reflexivity|].
  cbn [List.filter]. destruct (IsEmpty e) eqn:He; cbn [negb].
  - rewrite values_cons, (IsEmpty_denote _ _ _ He). exact IH.
  - rewrite !values_cons, IH. reflexivity.
Qed.

(** Leaving the empty lists out does not change what a list selects. *)
Lemma denote_NewExpressionList db row op es :
  denote db row (NewExpressionList op es) = denote db row (List op es).
Proof.
  unfold NewExpressionList. rewrite !denote_List, values_filter_nonempty. reflexivity.
Qed.

Lemma NewExpressionList_app op es1 es2 :
  NewExpressionList op (es1 ++ es2) =
  List op (List.filter (fun e => negb (IsEmpty e)) es1
           ++ List.filter (fun e => negb (IsEmpty e)) es2).
Proof. unfold NewExpressionList. rewrite List.filter_app. reflexivity. Qed.

(** An empty expression list is left out of any list it is put in. *)
Lemma NewExpressionList_drop op es1 e es2 :
  IsEmpty e = true ->
  NewExpressionList op (es1 ++ e :: es2) = NewExpressionList op (es1 ++ es2).
Proof.
  intros He. rewrite !NewExpressionList_app. cbn [List.filter]. rewrite He. reflexivity.
Qed.

(** The empty list is both: it restricts nothing and selects nothing. *)
Lemma IsEmpty_alwaysTrue e : IsEmpty e = true -> alwaysTrue e.
Proof. intros He db row. unfold asConjunct. rewrite (IsEmpty_denote _ _ _ He). reflexivity. Qed.

Lemma IsEmpty_alwaysFalse e : IsEmpty e = true -> alwaysFalse e.
Proof. intros He db row. unfold asDisjunct. rewrite (IsEmpty_denote _ _ _ He). reflexivity. Qed.

End goqu.

(** ** pkg/resolver/rbacHelper.go *)
Module resolver.

Import goqu.

(** [rbac.Resource] *)
Record Resource : Set := mkResource { Apigroup : string; Kind : string }.

#[global] Instance Resource_eq_dec : EqDecision Resource.
Proof. solve_decision. Defined.

(** The fields of [v1.UserInfo] the resolver reads. *)
Record UserInfo : Set := mkUserInfo { Username : string; UID : string }.

(** [rbac.UserData], with the fields the resolver reads. *)
Record UserData : Type := mkUserData {
  CsResources : list Resource;
  NsResources : gmap string (list Resource);
  ConsolidatedNsResources : gmap string (list string);
  NsResourceGroups : gmap string string;
}.

Definition error : Set := string.

(** A Go result pair [(value, error)] of which exactly one side is set. *)
Inductive result (A : Type) : Type :=
| Ok (a : A)
| Err (e : error).
Arguments Ok {A} a.
Arguments Err {A} e.

(** [encoding/json] at the type [[]rbac.Resource]: [json.Marshal] of a
    resource list and [json.Unmarshal] of a string into one. *)
Class JSON : Type := {
  Marshal : list Resource -> result string;
  Unmarshal : string -> result (list Resource);
}.

(** [strings.ReplaceAll(s, old, new)] for one-byte [old] and [new]. *)
Fixpoint ReplaceAll (s : string) (old new : ascii) : string :=
  match s with
  | EmptyString => EmptyString
  | String c rest =>
      String (if Ascii.eqb c old then new else c) (ReplaceAll rest old new)
  end.

Definition string_le (s1 s2 : string) : Prop := String.leb s1 s2 = true.

#[global] Instance string_le_dec : RelDecision string_le.
Proof. intros s1 s2. unfold string_le. apply _. Defined.

(** Modelled from the spec: [rbac.GetKeys] is not part of the sources.  It
    returns the keys of a map; the spec asks for a deterministic ordering
    of the keys, which is taken to be ascending byte order. *)
Definition GetKeys {V : Type} (m : gmap string V) : list string :=
  merge_sort string_le (elements (dom m)).

(** One iteration of the loop of [matchApigroupKind]: the clauses of one
    resource. *)
Definition whereOrDs_of (clusterRes : Resource) : list Expression :=
  let whereOrDs := [] in
  let whereOrDs :=
    if negb (Apigroup clusterRes =? "*") then
      let isApiGrp :=
        if Apigroup clusterRes =? "" then
          L "NOT(???)" [C "data"; Literal "?"; Str "apigroup"]
        else
          L "???" [L "data->?" [Str "apigroup"]; Literal "?"; Str (Apigroup clusterRes)] in
      whereOrDs ++ [isApiGrp]
    else whereOrDs in
  let whereOrDs :=
    if negb (Kind clusterRes =? "*") then
      whereOrDs ++ [L "???" [L "data->?" [Str "kind_plural"]; Literal "?"; Str (Kind clusterRes)]]
    else whereOrDs in
  whereOrDs.

(** The loop of [matchApigroupKind], from index [i] with the clause
    [whereCsDs] built so far. *)
Fixpoint matchApigroupKind_from (i : nat) (whereCsDs : Expression)
    (resources : list Resource) : Expression :=
  match resources with
  | [] => whereCsDs
  | clusterRes :: rest =>
      let whereOrDs := whereOrDs_of clusterRes in
      if (Apigroup clusterRes =? "*") && (Kind clusterRes =? "*") then
        Or []
      else
        let whereCsDs :=
          if Nat.eqb i 0 then And whereOrDs
          else Or [whereCsDs; And whereOrDs] in
        matchApigroupKind_from (S i) whereCsDs rest
  end.

Definition matchApigroupKind (resources : list Resource) : Expression :=
  matchApigroupKind_from 0 Nil resources.

Definition matchClusterScopedResources (csRes : list Resource) (userInfo : UserInfo) : Expression :=
  match csRes with
  | [] => Or []
  | r0 :: tl =>
      if Nat.eqb (length csRes) 1 && (Apigroup r0 =? "*") && (Kind r0 =? "*") then
        Or []
      else
        And [L "NOT(???)" [C "data"; Literal "?"; Str "namespace"];
             matchApigroupKind csRes]
  end.

Section with_json.

Context `{JSON}.

Definition tableName (uid : string) : string :=
  String.append "lookup_" (ReplaceAll uid "-" "_").

(** The clause of one group of namespaces: the namespace is one of the
    group's, looked up in the user's lookup table, and the resource is one
    of [resList]. *)
Definition groupClause (userInfo : UserInfo) (groupName : string)
    (resList : list Resource) : Expression :=
  And [L "???" [L "data->?" [Str "namespace"]; Literal "?|";
                Select (tableName (UID userInfo)) (L "resList" [])
                       (Eq (C "type") (Str groupName))];
       matchApigroupKind resList].

(** The first loop of [matchNamespacedResources], over the keys of the
    consolidated map; [Err] when a key does not unmarshal (the [break]). *)
Fixpoint consolidatedClauses (userData : UserData) (userInfo : UserInfo)
    (keys : list string) : result (list Expression) :=
  match keys with
  | [] => Ok []
  | resources :: rest =>
      let groupName := default "" (NsResourceGroups userData !! resources) in
      match Unmarshal resources with
      | Ok resList =>
          match consolidatedClauses userData userInfo rest with
          | Ok whereNsDs => Ok (groupClause userInfo groupName resList :: whereNsDs)
          | Err unMarshalErr => Err unMarshalErr
          end
      | Err unMarshalErr => Err unMarshalErr
      end
  end.

(** The clause of one namespace in the non-consolidated list. *)
Definition namespaceClause (userData : UserData) (namespace : string) : Expression :=
  And [L "???" [L "data->?" [Str "namespace"]; Literal "?"; Str namespace];
       matchApigroupKind (default [] (NsResources userData !! namespace))].

(** The second loop of [matchNamespacedResources]: one clause per
    namespace. *)
Definition nonConsolidatedClauses (userData : UserData)
    (namespaces : list string) : list Expression :=
  List.map (namespaceClause userData) namespaces.

(** The second test of [matchNamespacedResources]: the only namespace of
    the map is "*". *)
Definition allNamespaces (userData : UserData) (namespaces : list string) : bool :=
  Nat.eqb (size (NsResources userData)) 1
  && match namespaces with
     | ns0 :: _ => ns0 =? "*"
     | [] => false
     end.

Definition matchNamespacedResources (userData : UserData) (userInfo : UserInfo) : Expression :=
  let namespaces := GetKeys (NsResources userData) in
  if Nat.ltb (size (NsResources userData)) 1 then
    Or []
  else if allNamespaces userData namespaces then
    Or []
  else
    let keys := GetKeys (ConsolidatedNsResources userData) in
    match consolidatedClauses userData userInfo keys with
    | Ok whereNsDs => Or whereNsDs
    | Err _ => Or (nonConsolidatedClauses userData namespaces)
    end.

(** The loop of [consolidateNsResources] over the entries of [nsResources]
    in the order the [range] visits them. *)
Fixpoint consolidate_from (m : gmap string (list string))
    (entries : list (string * list Resource)) : result (gmap string (list string)) :=
  match entries with
  | [] => Ok m
  | (ns, resources) :: rest =>
      match Marshal resources with
      | Ok b =>
          let m :=
            match m !! b with
            | Some group => <[b := group ++ [ns]]> m
            | None => <[b := [ns]]> m
            end in
          consolidate_from m rest
      | Err err => Err err
      end
  end.

(** [consolidateNsResources] for a given visiting order of the map's
    entries.  The three results are the map, its keys and the error; a nil
    map is the empty map and a nil slice the empty list. *)
Definition consolidateNsResources_in (entries : list (string * list Resource))
    : gmap string (list string) * list string * option error :=
  match consolidate_from ∅ entries with
  | Ok m => (m, GetKeys m, None)
  | Err err => (∅, [], Some err)
  end.

(** [consolidateNsResources], visiting the entries in the order of
    [map_to_list]. *)
Definition consolidateNsResources (nsResources : gmap string (list Resource))
    : gmap string (list string) * list string * option error :=
  consolidateNsResources_in (map_to_list nsResources).

Definition matchHubCluster (userrbac : UserData) (userInfo : UserInfo) : Expression :=
  if Nat.eqb (length (CsResources userrbac)) 0 && Nat.eqb (size (NsResources userrbac)) 0 then
    And []
  else
    And [L "???" [C "data"; Literal "?"; Str "_hubClusterResource"];
         Or [matchClusterScopedResources (CsResources userrbac) userInfo;
             matchNamespacedResources userrbac userInfo]].

End with_json.

Definition matchManagedCluster (managedClusters : list string)
    (managedClusterAllAccess : bool) (userId : string) : Expression :=
  if managedClusterAllAccess then
    IsNotTrue (L "???" [C "data"; Literal "?"; Str "_hubClusterResource"])
  else
    let tableName := String.append "lookup_" (ReplaceAll userId "-" "_") in
    Eq (C "cluster")
       (Any (Select tableName (L "unnest(resList)" []) (Eq (C "type") (Str "cluster")))).

(** *** [encoding/json] for plain strings

    What [json.Marshal] writes for a [[]rbac.Resource] whose strings need
    no escaping, and the reading of that text back.  A nil slice is
    written [null]. *)
Module plain.

Definition quote : ascii := "034"%char.

Definition quoted (s : string) : string :=
  String quote (String.append s (String quote EmptyString)).

Definition marshalResource (r : Resource) : string :=
  String.concat EmptyString
    ["{"; quoted "Apigroup"; ":"; quoted (Apigroup r); ",";
     quoted "Kind"; ":"; quoted (Kind r); "}"].

Definition marshal (rs : list Resource) : result string :=
  match rs with
  | [] => Ok "null"
  | _ => Ok (String.concat EmptyString ["["; String.concat "," (List.map marshalResource rs); "]"])
  end.

(** [expect p s]: [s] without its prefix [p]. *)
Fixpoint expect (p s : string) : option string :=
  match p, s with
  | EmptyString, _ => Some s
  | String c p', String d s' => if Ascii.eqb c d then expect p' s' else None
  | String _ _, EmptyString => None
  end.

(** The characters up to the next quote, and what follows that quote. *)
Fixpoint readString (s : string) : option (string * string) :=
  match s with
  | EmptyString => None
  | String c s' =>
      if Ascii.eqb c quote then Some (EmptyString, s')
      else match readString s' with
           | Some (v, rest) => Some (String c v, rest)
           | None => None
           end
  end.

Definition readResource (s : string) : option (Resource * string) :=
  s ← expect (String.concat EmptyString ["{"; quoted "Apigroup"; ":"; String quote EmptyString]) s;
  '(g, s) ← readString s;
  s ← expect (String.concat EmptyString [","; quoted "Kind"; ":"; String quote EmptyString]) s;
  '(k, s) ← readString s;
  s ← expect "}" s;
  Some (mkResource g k, s).

Fixpoint readResources (fuel : nat) (s : string) : option (list Resource) :=
  match fuel with
  | O => None
  | S fuel =>
      '(r, s) ← readResource s;
      if s =? "]" then Some [r]
      else s ← expect "," s; rs ← readResources fuel s; Some (r :: rs)
  end.

Definition unmarshal (s : string) : result (list Resource) :=
  if s =? "null" then Ok []
  else if s =? "[]" then Ok []
  else match expect "[" s ≫= readResources (String.length s) with
       | Some rs => Ok rs
       | None => Err "invalid character"
       end.

Definition json : JSON := {| Marshal := marshal; Unmarshal := unmarshal |}.

End plain.

(** *** The empty clause: no access and blanket access *)

Definition fullWildcard : Resource := mkResource "*" "*".

Lemma matchApigroupKind_from_wildcard i whereCsDs resources :
  In fullWildcard resources ->
  matchApigroupKind_from i whereCsDs resources = Or [].
Proof.
  revert i whereCsDs.
  induction resources as [|clusterRes rest IH]; intros i whereCsDs Hin; [destruct Hin|].
  cbn [matchApigroupKind_from].
  destruct ((Apigroup clusterRes =? "*") && (Kind clusterRes =? "*")) eqn:Hw; [reflexivity|].
  destruct Hin as [->|Hin]; [discriminate Hw|].
  apply IH, Hin.
Qed.

(** C4.  A resource list that holds the entry with apigroup "*" and kind
    "*" anywhere makes [matchApigroupKind] return the empty clause
    [goqu.Or()], whatever the other entries are: an expression that
    restricts no row. *)
Theorem matchApigroupKind_wildcard_short_circuit (resources : list Resource) :
  In fullWildcard resources ->
  matchApigroupKind resources = Or [] /\ alwaysTrue (matchApigroupKind resources).
Proof.
  intros Hin. unfold matchApigroupKind.
  rewrite (matchApigroupKind_from_wildcard _ _ _ Hin).
  split; [reflexivity|]. apply IsEmpty_alwaysTrue. reflexivity.
Qed.

Lemma matchApigroupKind_wildcard_short_circuit_witness :
  let resources := [mkResource "apps" "deployments"; fullWildcard; mkResource "" "pods"] in
  In fullWildcard resources /\
  (matchApigroupKind resources = Or [] /\ alwaysTrue (matchApigroupKind resources)).
Proof.
  cbv zeta. split.
  - right. left. reflexivity.
  - apply matchApigroupKind_wildcard_short_circuit. right. left. reflexivity.
Defined.

Section claims_with_json.

Context `{JSON}.

(** C1.  With no cluster-scoped resource and no namespace-scoped resource
    in the snapshot, [matchHubCluster] returns the empty clause
    [goqu.And()]: no row is selected through it, and a disjunction it is
    put in is the disjunction of the other alternatives alone. *)
Theorem matchHubCluster_no_access
    (consolidated : gmap string (list string)) (groups : gmap string string)
    (userInfo : UserInfo) :
  let hub := matchHubCluster (mkUserData [] ∅ consolidated groups) userInfo in
  hub = And [] /\
  alwaysFalse hub /\
  forall others : list Expression, Or (others ++ [hub]) = Or others.
Proof.
  cbv zeta. unfold matchHubCluster. cbn [CsResources NsResources length].
  rewrite map_size_empty. cbn [Nat.eqb andb].
  split; [reflexivity|]. split.
  - apply IsEmpty_alwaysFalse. reflexivity.
  - intros others. unfold Or.
    rewrite NewExpressionList_drop by reflexivity. rewrite List.app_nil_r. reflexivity.
Qed.

End claims_with_json.

(** The empty clause of [matchClusterScopedResources]: it returns
    [goqu.Or()] for the empty list and for the list of the single entry
    "*"/"*" alike, one and the same expression.  Every other list gives a
    clause that is not empty. *)
Lemma matchClusterScopedResources_empty_clause (userInfo : UserInfo) :
  matchClusterScopedResources [] userInfo = Or [] /\
  matchClusterScopedResources [fullWildcard] userInfo = Or [] /\
  forall csRes : list Resource,
    IsEmpty (matchClusterScopedResources csRes userInfo) = true <->
    csRes = [] \/ csRes = [fullWildcard].
Proof.
  split; [reflexivity|]. split; [reflexivity|].
  intros csRes. split.
  - destruct csRes as [|[g k] tl]; [left; reflexivity|].
    unfold matchClusterScopedResources.
    destruct (Nat.eqb (length (mkResource g k :: tl)) 1 && (Apigroup (mkResource g k) =? "*")
              && (Kind (mkResource g k) =? "*")) eqn:Hw.
    + intros _. right.
      apply andb_prop in Hw as [Hw Hk]. apply andb_prop in Hw as [Hlen Hg].
      cbn in Hg, Hk. apply String.eqb_eq in Hg, Hk. subst g k.
      destruct tl; [reflexivity|discriminate Hlen].
    + discriminate.
  - intros [->| ->]; reflexivity.
Qed.

(** *** Consolidation of namespaces *)

Lemma elem_of_GetKeys {V : Type} (m : gmap string V) (k : string) :
  k ∈ GetKeys m <-> is_Some (m !! k).
Proof.
  unfold GetKeys. rewrite merge_sort_Permutation, elem_of_elements, elem_of_dom.
  reflexivity.
Qed.

Lemma GetKeys_nil {V : Type} (m : gmap string V) : GetKeys m = [] <-> m = ∅.
Proof.
  unfold GetKeys. split.
  - intros Hnil. apply map_empty. intros k.
    destruct (m !! k) eqn:Hk; [|reflexivity].
    assert (Hin : k ∈ merge_sort string_le (elements (dom m))).
    { rewrite merge_sort_Permutation, elem_of_elements, elem_of_dom. eauto. }
    rewrite Hnil in Hin. inversion Hin.
  - intros ->. rewrite dom_empty_L, elements_empty. reflexivity.
Qed.

Lemma GetKeys_ext {V W : Type} (m1 : gmap string V) (m2 : gmap string W) :
  (forall k, is_Some (m1 !! k) <-> is_Some (m2 !! k)) -> GetKeys m1 = GetKeys m2.
Proof.
  intros Hdom. unfold GetKeys. f_equal. f_equal.
  apply set_eq. intros k. rewrite !elem_of_dom. apply Hdom.
Qed.

Section consolidation.

Context `{JSON}.

(** [json.Marshal rs] succeeds with the text [k]. *)
Definition marshalsTo (k : string) (rs : list Resource) : bool :=
  match Marshal rs with
  | Ok b => b =? k
  | Err _ => false
  end.

(** The namespaces of the entries whose resources marshal to [k], in the
    order of the entries. *)
Definition members (k : string) (entries : list (string * list Resource)) : list string :=
  List.map fst (List.filter (fun e => marshalsTo k (snd e)) entries).

Lemma marshalsTo_true k rs : marshalsTo k rs = true <-> Marshal rs = Ok k.
Proof.
  unfold marshalsTo. destruct (Marshal rs) as [b|err].
  - rewrite String.eqb_eq. split; [intros ->; reflexivity|intros [= ->]; reflexivity].
  - split; discriminate.
Qed.

Lemma in_members k entries ns :
  In ns (members k entries) <-> exists rs, In (ns, rs) entries /\ Marshal rs = Ok k.
Proof.
  unfold members. rewrite in_map_iff. split.
  - intros [[ns' rs] [Hns Hin]]. cbn in Hns. subst ns'.
    apply filter_In in Hin as [Hin Hk]. exists rs. split; [exact Hin|].
    apply marshalsTo_true, Hk.
  - intros [rs [Hin Hk]]. exists (ns, rs). split; [reflexivity|].
    apply filter_In. split; [exact Hin|]. apply marshalsTo_true, Hk.
Qed.

(** The map built by the loop: under every key, the group that was there
    followed by the namespaces that marshal to the key. *)
Lemma consolidate_from_lookup entries :
  forall m0 m, consolidate_from m0 entries = Ok m ->
  forall k,
    m !! k = match members k entries with
             | [] => m0 !! k
             | g => Some (default [] (m0 !! k) ++ g)
             end.
Proof.
  induction entries as [|[ns rs] rest IH]; intros m0 m Hm k.
  - cbn in Hm. injection Hm as <-. reflexivity.
  - cbn [consolidate_from] in Hm.
    destruct (Marshal rs) as [b|err] eqn:Hb; [|discriminate].
    cbv zeta in Hm.
    assert (Hins : match m0 !! b with
                   | Some group => <[b := group ++ [ns]]> m0
                   | None => <[b := [ns]]> m0
                   end = <[b := default [] (m0 !! b) ++ [ns]]> m0).
    { destruct (m0 !! b); reflexivity. }
    rewrite Hins in Hm. rewrite (IH _ _ Hm k).
    unfold members. cbn [List.filter snd]. unfold marshalsTo at 2. rewrite Hb.
    destruct (String.eqb_spec b k) as [->|Hne].
    + cbn [List.map fst]. rewrite lookup_insert_eq. cbn [default].
      destruct (List.map fst (List.filter (fun e => marshalsTo k (snd e)) rest)).
      * reflexivity.
      * unfold id. rewrite <- List.app_assoc. reflexivity.
    + rewrite lookup_insert_ne by exact Hne. reflexivity.
Qed.

Lemma consolidate_lookup entries m k :
  consolidate_from ∅ entries = Ok m ->
  m !! k = match members k entries with
           | [] => None
           | g => Some g
           end.
Proof.
  intros Hm. rewrite (consolidate_from_lookup _ _ _ Hm k), lookup_empty. reflexivity.
Qed.

(** The keys of the consolidated map are the texts some entry marshals
    to. *)
Lemma consolidate_is_Some entries m k :
  consolidate_from ∅ entries = Ok m ->
  is_Some (m !! k) <-> exists ns rs, In (ns, rs) entries /\ Marshal rs = Ok k.
Proof.
  intros Hm. rewrite (consolidate_lookup _ _ _ Hm).
  destruct (members k entries) as [|ns g] eqn:Hg.
  - split; [intros [? [=]]|].
    intros (ns & rs & Hin). assert (Hns : In ns (members k entries)).
    { apply in_members. eauto. }
    rewrite Hg in Hns. destruct Hns.
  - split; [|eauto]. intros _.
    assert (Hns : In ns (members k entries)) by (rewrite Hg; left; reflexivity).
    apply in_members in Hns as [rs Hrs]. eauto.
Qed.

(** The group under a key holds the namespaces whose resources marshal to
    the key. *)
Lemma consolidate_group entries m k group ns :
  consolidate_from ∅ entries = Ok m ->
  m !! k = Some group ->
  In ns group <-> exists rs, In (ns, rs) entries /\ Marshal rs = Ok k.
Proof.
  intros Hm Hk. rewrite (consolidate_lookup _ _ _ Hm) in Hk.
  rewrite <- in_members. destruct (members k entries); [discriminate|].
  injection Hk as <-. reflexivity.
Qed.

(** The loop fails exactly when some entry does not marshal. *)
Lemma consolidate_from_Ok entries :
  forall m0,
    (exists m, consolidate_from m0 entries = Ok m) <->
    Forall (fun e => exists b, Marshal (snd e) = Ok b) entries.
Proof.
  induction entries as [|[ns rs] rest IH]; intros m0.
  - split; [constructor|]. intros _. exists m0. reflexivity.
  - cbn [consolidate_from]. destruct (Marshal rs) as [b|err] eqn:Hb.
    + cbv zeta. rewrite IH. split.
      * intros Hrest. constructor; [exists b; exact Hb|exact Hrest].
      * intros Hall. inversion Hall; assumption.
    + split; [intros [m [=]]|].
      intros Hall. inversion Hall as [|? ? [b Hb'] ?]. cbn in Hb'. congruence.
Qed.

(** C9.  The keys [consolidateNsResources] returns do not depend on the
    order in which the [range] visits the entries of the map: any two
    visiting orders give the same sequence of keys, and the predicates
    [matchNamespacedResources] builds from the two results are the same
    expression. *)
Theorem consolidateNsResources_keys_deterministic
    (nsResources : gmap string (list Resource))
    (entries1 entries2 : list (string * list Resource)) :
  entries1 ≡ₚ map_to_list nsResources ->
  entries2 ≡ₚ map_to_list nsResources ->
  snd (fst (consolidateNsResources_in entries1))
    = snd (fst (consolidateNsResources_in entries2)) /\
  forall cs groups userInfo,
    matchNamespacedResources
      (mkUserData cs nsResources (fst (fst (consolidateNsResources_in entries1))) groups) userInfo
    = matchNamespacedResources
        (mkUserData cs nsResources (fst (fst (consolidateNsResources_in entries2))) groups) userInfo.
Proof.
  intros Hp1 Hp2.
  assert (Hp : entries1 ≡ₚ entries2) by (rewrite Hp1, Hp2; reflexivity).
  assert (Hkeys : GetKeys (fst (fst (consolidateNsResources_in entries1)))
                  = GetKeys (fst (fst (consolidateNsResources_in entries2)))
                  /\ snd (fst (consolidateNsResources_in entries1))
                     = snd (fst (consolidateNsResources_in entries2))).
  { unfold consolidateNsResources_in.
    destruct (consolidate_from ∅ entries1) as [m1|e1] eqn:H1,
             (consolidate_from ∅ entries2) as [m2|e2] eqn:H2; cbn [fst snd].
    - assert (Heq : GetKeys m1 = GetKeys m2); [|split; exact Heq].
      apply GetKeys_ext. intros k.
      rewrite (consolidate_is_Some _ _ _ H1), (consolidate_is_Some _ _ _ H2).
      split; intros (ns & rs & Hin & Hk); exists ns, rs; (split; [|exact Hk]).
      + apply (Permutation_in _ Hp), Hin.
      + apply (Permutation_in _ (Permutation_sym Hp)), Hin.
    - exfalso. assert (Hok : exists m, consolidate_from ∅ entries2 = Ok m).
      { apply consolidate_from_Ok. rewrite <- Hp.
        apply (proj1 (consolidate_from_Ok entries1 ∅)). eauto. }
      destruct Hok as [m Hm]. congruence.
    - exfalso. assert (Hok : exists m, consolidate_from ∅ entries1 = Ok m).
      { apply consolidate_from_Ok. rewrite Hp.
        apply (proj1 (consolidate_from_Ok entries2 ∅)). eauto. }
      destruct Hok as [m Hm]. congruence.
    - split; reflexivity. }
  destruct Hkeys as [Hkeys Hret]. split; [exact Hret|].
  intros cs groups userInfo. unfold matchNamespacedResources, allNamespaces.
  cbn [NsResources ConsolidatedNsResources]. rewrite Hkeys.
  set (keys := GetKeys (fst (fst (consolidateNsResources_in entries2)))).
  assert (Hcl : consolidatedClauses
                  (mkUserData cs nsResources (fst (fst (consolidateNsResources_in entries1))) groups)
                  userInfo keys
                = consolidatedClauses
                    (mkUserData cs nsResources (fst (fst (consolidateNsResources_in entries2))) groups)
                    userInfo keys).
  { induction keys as [|k keys IH]; [reflexivity|].
    cbn [consolidatedClauses NsResourceGroups]. rewrite IH. reflexivity. }
  rewrite Hcl. reflexivity.
Qed.

(** *** What the two forms of the namespace predicate select *)

(** The row's namespace is one of the namespaces the lookup table holds
    under [g]. *)
Definition inGroup (db : DB) (row : Row) (table g : string) : bool :=
  match data row !! "namespace", resList_of db table g with
  | Some v, Some l => bool_decide (v ∈ l)
  | _, _ => false
  end.

Lemma denote_And_pair db row sql args e :
  denote db row (And [L sql args; e]) =
  Some (holdsL db row sql args && asConjunct db row e).
Proof.
  unfold And. rewrite denote_NewExpressionList, denote_List, !values_cons.
  cbn [denote]. unfold asConjunct.
  destruct (denote db row e) as [b|]; cbn [values omap list_omap forallb default].
  - rewrite andb_true_r. reflexivity.
  - reflexivity.
Qed.

Lemma denote_groupClause db row userInfo g rs :
  denote db row (groupClause userInfo g rs) =
  Some (inGroup db row (tableName (UID userInfo)) g
        && asConjunct db row (matchApigroupKind rs)).
Proof. unfold groupClause. rewrite denote_And_pair. reflexivity. Qed.

Lemma denote_namespaceClause db row userData namespace :
  denote db row (namespaceClause userData namespace) =
  Some (bool_decide (data row !! "namespace" = Some namespace)
        && asConjunct db row
             (matchApigroupKind (default [] (NsResources userData !! namespace)))).
Proof. unfold namespaceClause. rewrite denote_And_pair. reflexivity. Qed.

(** A disjunction of clauses each of which renders some SQL. *)
Lemma denote_Or_map {A : Type} db row (f : A -> Expression) (g : A -> bool) (l : list A) :
  (forall x, denote db row (f x) = Some (g x)) ->
  denote db row (Or (List.map f l)) =
  match l with
  | [] => None
  | _ => Some (existsb g l)
  end.
Proof.
  intros Hf. unfold Or. rewrite denote_NewExpressionList, denote_List.
  assert (Hv : values db row (List.map f l) = List.map g l).
  { induction l as [|x l IH]; [reflexivity|].
    cbn [List.map]. rewrite values_cons, Hf, IH. reflexivity. }
  assert (He : forall l', existsb (fun b => b) (List.map g l') = existsb g l').
  { induction l' as [|y l' IH]; [reflexivity|].
    cbn [List.map existsb]. rewrite IH. reflexivity. }
  rewrite Hv. destruct l as [|x l]; [reflexivity|].
  rewrite <- He. reflexivity.
Qed.

(** The resources a key of the consolidated map unmarshals to. *)
Definition resList_of_key (k : string) : list Resource :=
  match Unmarshal k with
  | Ok resList => resList
  | Err _ => []
  end.

Lemma consolidatedClauses_Ok userData userInfo keys :
  (forall k, In k keys -> exists rs, Unmarshal k = Ok rs) ->
  consolidatedClauses userData userInfo keys =
  Ok (List.map (fun k => groupClause userInfo (default "" (NsResourceGroups userData !! k))
                          (resList_of_key k)) keys).
Proof.
  induction keys as [|k keys IH]; intros Hall; [reflexivity|].
  cbn [consolidatedClauses List.map]. unfold resList_of_key at 1.
  destruct (Hall k (or_introl eq_refl)) as [rs ->].
  rewrite IH; [reflexivity|]. intros k' Hk'. apply Hall. right. exact Hk'.
Qed.

(** What [json.Marshal] writes for [rs], [json.Unmarshal] reads back as
    [rs]. *)
Definition roundTrips (rs : list Resource) : Prop :=
  forall b, Marshal rs = Ok b -> Unmarshal b = Ok rs.

(** The lookup table of the user holds every group of the consolidated map
    [m] under the group's name. *)
Definition lookupHolds (db : DB) (userInfo : UserInfo) (groups : gmap string string)
    (m : gmap string (list string)) : Prop :=
  map_Forall (fun k group =>
    resList_of db (tableName (UID userInfo)) (default "" (groups !! k)) = Some group) m.

(** C3.  Take a namespace-scoped map whose resource lists survive the JSON
    round trip, consolidate it (in any visiting order, without a marshal
    error), and let the user's lookup table hold the groups.  Then the
    first loop of [matchNamespacedResources] succeeds, its clauses are
    what [matchNamespacedResources] returns (unless the map is the single
    namespace "*"), and on every row their disjunction has the value of
    the disjunction of the per-namespace clauses of the second loop. *)
Theorem consolidation_transparent
    (nsResources : gmap string (list Resource))
    (entries : list (string * list Resource))
    (cs : list Resource) (groups : gmap string string)
    (userInfo : UserInfo) (db : DB) :
  entries ≡ₚ map_to_list nsResources ->
  map_Forall (fun _ rs => roundTrips rs) nsResources ->
  snd (consolidateNsResources_in entries) = None ->
  lookupHolds db userInfo groups (fst (fst (consolidateNsResources_in entries))) ->
  let userData :=
    mkUserData cs nsResources (fst (fst (consolidateNsResources_in entries))) groups in
  let namespaces := GetKeys (NsResources userData) in
  exists whereNsDs,
    consolidatedClauses userData userInfo (GetKeys (ConsolidatedNsResources userData))
      = Ok whereNsDs /\
    (allNamespaces userData namespaces = false ->
     matchNamespacedResources userData userInfo = Or whereNsDs) /\
    forall row,
      denote db row (Or whereNsDs)
      = denote db row (Or (nonConsolidatedClauses userData namespaces)).
Proof.
  intros Hperm Hround Herr Hdb.
  unfold consolidateNsResources_in in *.
  destruct (consolidate_from ∅ entries) as [m|e] eqn:Hm; [|discriminate Herr].
  cbn [fst snd] in *. clear Herr.
  set (userData := mkUserData cs nsResources m groups).
  set (namespaces := GetKeys (NsResources userData)).
  assert (Hentry : forall ns rs, In (ns, rs) entries <-> nsResources !! ns = Some rs).
  { intros ns rs. rewrite <- elem_of_map_to_list, <- Hperm, list_elem_of_In. reflexivity. }
  assert (Hmarshal : forall ns rs, nsResources !! ns = Some rs -> exists b, Marshal rs = Ok b).
  { intros ns rs Hns. apply Hentry in Hns.
    assert (Hall : Forall (fun e => exists b, Marshal (snd e) = Ok b) entries)
      by (apply (proj1 (consolidate_from_Ok entries ∅)); eauto).
    rewrite List.Forall_forall in Hall. apply (Hall (ns, rs) Hns). }
  assert (Hkey : forall k, In k (GetKeys m) ->
            exists group, m !! k = Some group /\
              resList_of db (tableName (UID userInfo)) (default "" (groups !! k)) = Some group).
  { intros k Hk. apply list_elem_of_In, elem_of_GetKeys in Hk as [group Hgroup].
    exists group. split; [exact Hgroup|]. apply (Hdb k group Hgroup). }
  assert (Hunm : forall k ns rs, In (ns, rs) entries -> Marshal rs = Ok k ->
            Unmarshal k = Ok rs).
  { intros k ns rs Hin Hk. apply (Hround ns rs); [apply Hentry, Hin|exact Hk]. }
  assert (Hkeys : forall k, In k (GetKeys m) -> exists rs, Unmarshal k = Ok rs).
  { intros k Hk. apply list_elem_of_In, elem_of_GetKeys in Hk.
    apply (consolidate_is_Some _ _ _ Hm) in Hk as (ns & rs & Hin & Hk). eauto. }
  exists (List.map (fun k => groupClause userInfo (default "" (groups !! k))
                               (resList_of_key k)) (GetKeys m)).
  split; [apply (consolidatedClauses_Ok userData userInfo (GetKeys m) Hkeys)|].
  assert (Hnil : GetKeys m = [] <-> namespaces = []).
  { unfold namespaces. cbn [NsResources userData]. rewrite !GetKeys_nil. split.
    - intros ->. apply map_empty. intros ns.
      destruct (nsResources !! ns) as [rs|] eqn:Hns; [|reflexivity].
      destruct (Hmarshal ns rs Hns) as [b Hb].
      assert (Hsome : is_Some ((∅ : gmap string (list string)) !! b)).
      { apply (consolidate_is_Some _ _ _ Hm). exists ns, rs.
        split; [apply Hentry, Hns|exact Hb]. }
      rewrite lookup_empty in Hsome. destruct Hsome as [? [=]].
    - intros ->. rewrite map_to_list_empty in Hperm.
      apply Permutation_nil_r in Hperm. subst entries.
      cbn in Hm. injection Hm as <-. reflexivity. }
  split.
  - intros Hall. unfold matchNamespacedResources. fold namespaces. rewrite Hall.
    cbn [ConsolidatedNsResources userData].
    rewrite (consolidatedClauses_Ok userData userInfo (GetKeys m) Hkeys).
    destruct (Nat.ltb (size (NsResources userData)) 1) eqn:Hsize; [|reflexivity].
    apply Nat.ltb_lt in Hsize.
    assert (Hempty : nsResources = ∅).
    { apply map_size_empty_inv. cbn [NsResources userData] in Hsize. lia. }
    assert (Hk : GetKeys m = []).
    { apply Hnil. unfold namespaces. cbn [NsResources userData].
      apply GetKeys_nil, Hempty. }
    rewrite Hk. reflexivity.
  - intros row.
    rewrite (denote_Or_map db row _ _ _ (fun k => denote_groupClause db row userInfo _ _)).
    unfold nonConsolidatedClauses.
    rewrite (denote_Or_map db row _ _ _ (denote_namespaceClause db row userData)).
    cut (existsb (fun k => inGroup db row (tableName (UID userInfo)) (default "" (groups !! k))
                           && asConjunct db row (matchApigroupKind (resList_of_key k)))
           (GetKeys m)
         = existsb (fun ns => bool_decide (data row !! "namespace" = Some ns)
                              && asConjunct db row
                                   (matchApigroupKind (default [] (NsResources userData !! ns))))
             namespaces).
    { intros ->. clearbody namespaces.
      destruct (GetKeys m) as [|k0 keys], namespaces as [|n0 nss]; try reflexivity.
      - destruct Hnil as [Hnil _]. discriminate (Hnil eq_refl).
      - destruct Hnil as [_ Hnil]. discriminate (Hnil eq_refl). }
    apply eq_true_iff_eq. rewrite !existsb_exists.
    unfold namespaces, userData. cbn [NsResources]. split.
    + intros (k & Hk & Hval). apply andb_prop in Hval as [Hin Hres].
      destruct (Hkey k Hk) as (group & Hgroup & Htable).
      unfold inGroup in Hin. rewrite Htable in Hin.
      destruct (data row !! "namespace") as [v|] eqn:Hv; [|discriminate Hin].
      apply bool_decide_eq_true_1, list_elem_of_In in Hin.
      apply (consolidate_group _ _ _ _ _ Hm Hgroup) in Hin as (rs & Hentries & Hmk).
      exists v. split.
      * apply list_elem_of_In, elem_of_GetKeys.
        exists rs. apply Hentry, Hentries.
      * rewrite (proj1 (Hentry v rs) Hentries).
        cbn [default]. unfold resList_of_key in Hres.
        rewrite (Hunm k v rs Hentries Hmk) in Hres.
        unfold id. rewrite Hres, andb_true_r.
        apply bool_decide_eq_true_2. reflexivity.
    + intros (ns & Hns & Hval). apply andb_prop in Hval as [Heq Hres].
      apply bool_decide_eq_true_1 in Heq.
      apply list_elem_of_In, elem_of_GetKeys in Hns as [rs Hrs].
      rewrite Hrs in Hres. cbn [default] in Hres. unfold id in Hres.
      destruct (Hmarshal ns rs Hrs) as [k Hmk].
      assert (Hin : In (ns, rs) entries) by (apply Hentry, Hrs).
      assert (Hsome : is_Some (m !! k)).
      { apply (consolidate_is_Some _ _ _ Hm). eauto. }
      exists k. split; [apply list_elem_of_In, elem_of_GetKeys, Hsome|].
      destruct Hsome as [group Hgroup].
      unfold inGroup. rewrite Heq, (Hdb k group Hgroup).
      unfold resList_of_key. rewrite (Hunm k ns rs Hin Hmk), Hres, andb_true_r.
      apply bool_decide_eq_true_2, list_elem_of_In.
      apply (consolidate_group _ _ _ _ _ Hm Hgroup). eauto.
Qed.

End consolidation.

Definition exampleNsResources : gmap string (list Resource) :=
  <["ns1" := [mkResource "g1" "k1"]]>
    (<["ns2" := [mkResource "g1" "k1"]]>
       (<["ns3" := [mkResource "g2" "k2"]]> ∅)).

Lemma consolidateNsResources_keys_deterministic_witness :
  let consolidate := consolidateNsResources_in (H := plain.json) in
  map_to_list exampleNsResources ≡ₚ map_to_list exampleNsResources /\
  reverse (map_to_list exampleNsResources) ≡ₚ map_to_list exampleNsResources /\
  snd (fst (consolidate (map_to_list exampleNsResources)))
    = snd (fst (consolidate (reverse (map_to_list exampleNsResources)))) /\
  forall cs groups userInfo,
    matchNamespacedResources (H := plain.json)
      (mkUserData cs exampleNsResources
         (fst (fst (consolidate (map_to_list exampleNsResources)))) groups) userInfo
    = matchNamespacedResources (H := plain.json)
        (mkUserData cs exampleNsResources
           (fst (fst (consolidate (reverse (map_to_list exampleNsResources))))) groups)
        userInfo.
Proof.
  cbv zeta.
  split; [reflexivity|]. split; [apply reverse_Permutation|].
  apply (consolidateNsResources_keys_deterministic (H := plain.json)).
  - reflexivity.
  - apply reverse_Permutation.
Defined.

(** The example of the spec: [ns1] and [ns2] share one resource list and
    form one group, [ns3] forms another. *)
Definition exampleKey (rs : list Resource) : string :=
  match plain.marshal rs with
  | Ok b => b
  | Err _ => EmptyString
  end.

Definition exampleGroups : gmap string string :=
  <[exampleKey [mkResource "g1" "k1"] := "group1"]>
    (<[exampleKey [mkResource "g2" "k2"] := "group2"]> ∅).

Definition exampleDB : DB :=
  <["lookup_user_1" := <["group1" := ["ns1"; "ns2"]]> (<["group2" := ["ns3"]]> ∅)]> ∅.

Lemma consolidation_transparent_witness :
  let userInfo := mkUserInfo "user" "user-1" in
  let entries := map_to_list exampleNsResources in
  let consolidated := fst (fst (consolidateNsResources_in (H := plain.json) entries)) in
  let userData := mkUserData [] exampleNsResources consolidated exampleGroups in
  let namespaces := GetKeys exampleNsResources in
  entries ≡ₚ map_to_list exampleNsResources /\
  map_Forall (fun _ rs => roundTrips (H := plain.json) rs) exampleNsResources /\
  snd (consolidateNsResources_in (H := plain.json) entries) = None /\
  lookupHolds exampleDB userInfo exampleGroups consolidated /\
  exists whereNsDs,
    consolidatedClauses (H := plain.json) userData userInfo (GetKeys consolidated)
      = Ok whereNsDs /\
    (allNamespaces userData namespaces = false ->
     matchNamespacedResources (H := plain.json) userData userInfo = Or whereNsDs) /\
    forall row,
      denote exampleDB row (Or whereNsDs)
      = denote exampleDB row (Or (nonConsolidatedClauses userData namespaces)).
Proof.
  cbv zeta.
  assert (Hround : map_Forall (fun _ rs => roundTrips (H := plain.json) rs) exampleNsResources).
  { unfold exampleNsResources.
    repeat (apply map_Forall_insert_2;
            [intros b Hb; cbn in Hb; injection Hb as <-; vm_compute; reflexivity|]).
    apply map_Forall_empty. }
  assert (Herr : snd (consolidateNsResources_in (H := plain.json)
                        (map_to_list exampleNsResources)) = None)
    by (vm_compute; reflexivity).
  assert (Hdb : lookupHolds exampleDB (mkUserInfo "user" "user-1") exampleGroups
                  (fst (fst (consolidateNsResources_in (H := plain.json)
                               (map_to_list exampleNsResources))))).
  { unfold lookupHolds. apply map_Forall_to_list. vm_compute.
    repeat constructor. }
  split; [reflexivity|]. split; [exact Hround|]. split; [exact Herr|]. split; [exact Hdb|].
  exact (consolidation_transparent (H := plain.json) exampleNsResources
           (map_to_list exampleNsResources) [] exampleGroups
           (mkUserInfo "user" "user-1") exampleDB
           (Permutation_refl _) Hround Herr Hdb).
Defined.

Example consolidateNsResources_example :
  consolidateNsResources (H := plain.json) exampleNsResources
  = (<[exampleKey [mkResource "g1" "k1"] := ["ns1"; "ns2"]]>
       (<[exampleKey [mkResource "g2" "k2"] := ["ns3"]]> ∅),
     [exampleKey [mkResource "g1" "k1"]; exampleKey [mkResource "g2" "k2"]],
     None).
Proof. vm_compute. reflexivity. Qed.

(** The predicate of the example on three rows: a [g1]/[k1] object of
    [ns1] is selected, one of [ns3] is not, and a [g2]/[k2] object of
    [ns3] is. *)
Definition exampleRow (namespace apigroup kind_plural : string) : Row :=
  mkRow (<["namespace" := namespace]>
           (<["apigroup" := apigroup]> (<["kind_plural" := kind_plural]> ∅)))
        "local-cluster".

Example matchNamespacedResources_example_rows :
  let userInfo := mkUserInfo "user" "user-1" in
  let consolidated :=
    fst (fst (consolidateNsResources (H := plain.json) exampleNsResources)) in
  let userData := mkUserData [] exampleNsResources consolidated exampleGroups in
  let predicate := matchNamespacedResources (H := plain.json) userData userInfo in
  denote exampleDB (exampleRow "ns1" "g1" "k1") predicate = Some true /\
  denote exampleDB (exampleRow "ns2" "g1" "k1") predicate = Some true /\
  denote exampleDB (exampleRow "ns3" "g1" "k1") predicate = Some false /\
  denote exampleDB (exampleRow "ns3" "g2" "k2") predicate = Some true /\
  denote exampleDB (exampleRow "ns4" "g1" "k1") predicate = Some false.
Proof. vm_compute. repeat split; reflexivity. Qed.

(** *** What the resource predicates select *)

(** The row is an object of a kind the resource [r] stands for: the
    apigroup of [r] is "*", or it is empty and the row has no apigroup,
    or it is the row's apigroup; and the kind of [r] is "*" or the row's
    [kind_plural]. *)
Definition resourceMatches (row : Row) (r : Resource) : bool :=
  (if Apigroup r =? "*" then true
   else if Apigroup r =? "" then negb (bool_decide (is_Some (data row !! "apigroup")))
   else bool_decide (data row !! "apigroup" = Some (Apigroup r)))
  && (if Kind r =? "*" then true
      else bool_decide (data row !! "kind_plural" = Some (Kind r))).

Definition isFullWildcard (r : Resource) : bool :=
  (Apigroup r =? "*") && (Kind r =? "*").

Lemma isFullWildcard_eq r : isFullWildcard r = true <-> r = fullWildcard.
Proof.
  destruct r as [g k]. unfold isFullWildcard, fullWildcard. cbn [Apigroup Kind].
  rewrite andb_true_iff, !String.eqb_eq. split.
  - intros [-> ->]. reflexivity.
  - intros [= -> ->]. split; reflexivity.
Qed.

Lemma denote_whereOrDs db row r :
  isFullWildcard r = false ->
  denote db row (And (whereOrDs_of r)) = Some (resourceMatches row r).
Proof.
  intros Hw. unfold And. rewrite denote_NewExpressionList, denote_List.
  unfold whereOrDs_of, resourceMatches, isFullWildcard in *.
  destruct (Apigroup r =? "*") eqn:Hg; destruct (Kind r =? "*") eqn:Hk;
    cbn [negb andb app] in *; try discriminate Hw.
  - rewrite values_cons. cbn. rewrite andb_true_r. reflexivity.
  - rewrite values_cons. destruct (Apigroup r =? ""); cbn; rewrite !andb_true_r; reflexivity.
  - rewrite !values_cons. destruct (Apigroup r =? ""); cbn; rewrite !andb_true_r; reflexivity.
Qed.

Lemma denote_matchApigroupKind_from db row resources :
  forallb (fun r => negb (isFullWildcard r)) resources = true ->
  forall i whereCsDs b,
    i <> 0%nat ->
    denote db row whereCsDs = Some b ->
    denote db row (matchApigroupKind_from i whereCsDs resources)
    = Some (b || existsb (resourceMatches row) resources).
Proof.
  induction resources as [|r rest IH]; intros Hall i whereCsDs b Hi Hb.
  - cbn. rewrite orb_false_r. exact Hb.
  - cbn [forallb] in Hall. apply andb_prop in Hall as [Hr Hrest].
    apply negb_true_iff in Hr. cbn [matchApigroupKind_from existsb].
    fold (isFullWildcard r). rewrite Hr.
    destruct i as [|i]; [destruct (Hi eq_refl)|]. cbn [Nat.eqb].
    rewrite (IH Hrest (S (S i)) _ (b || resourceMatches row r)).
    + rewrite orb_assoc. reflexivity.
    + discriminate.
    + unfold Or. rewrite denote_NewExpressionList, denote_List, !values_cons, Hb.
      rewrite (denote_whereOrDs db row r Hr). cbn. rewrite orb_false_r. reflexivity.
Qed.

Lemma asConjunct_matchApigroupKind db row (resources : list Resource) :
  asConjunct db row (matchApigroupKind resources)
  = existsb (resourceMatches row) resources.
Proof.
  unfold asConjunct, matchApigroupKind.
  destruct (forallb (fun r => negb (isFullWildcard r)) resources) eqn:Hall.
  - destruct resources as [|r rest]; [reflexivity|].
    cbn [forallb] in Hall. apply andb_prop in Hall as [Hr Hrest].
    apply negb_true_iff in Hr. cbn [matchApigroupKind_from existsb Nat.eqb].
    fold (isFullWildcard r). rewrite Hr.
    rewrite (denote_matchApigroupKind_from db row rest Hrest 1 _ (resourceMatches row r));
      [reflexivity|discriminate|apply denote_whereOrDs, Hr].
  - assert (Hin : In fullWildcard resources).
    { apply not_true_iff_false in Hall.
      destruct (in_dec Resource_eq_dec fullWildcard resources) as [Hin|Hnin]; [exact Hin|].
      exfalso. apply Hall, forallb_forall. intros r Hr.
      apply negb_true_iff, not_true_iff_false. intros Hw.
      apply isFullWildcard_eq in Hw. subst r. exact (Hnin Hr). }
    rewrite (matchApigroupKind_from_wildcard _ _ _ Hin). cbn [default].
    symmetry. apply existsb_exists. exists fullWildcard. split; [exact Hin|reflexivity].
Qed.

(** X1.  As a condition, the clause of [matchApigroupKind] holds on a row
    exactly when one of the resources matches the row: the apigroup of
    the resource is "*", or is empty while the row has none, or is the
    row's; and its kind is "*" or the row's [kind_plural]. *)
Theorem matchApigroupKind_selects db row (resources : list Resource) :
  asConjunct db row (matchApigroupKind resources)
  = existsb (resourceMatches row) resources.
Proof. apply asConjunct_matchApigroupKind. Qed.

(** X2.  For a list that is neither empty nor the single entry "*"/"*",
    [matchClusterScopedResources] selects the rows without a namespace
    one of whose resources matches; for those two lists it renders
    nothing. *)
Theorem matchClusterScopedResources_selects db row (csRes : list Resource)
    (userInfo : UserInfo) :
  denote db row (matchClusterScopedResources csRes userInfo)
  = if bool_decide (csRes = [] \/ csRes = [fullWildcard]) then None
    else Some (negb (bool_decide (is_Some (data row !! "namespace")))
               && existsb (resourceMatches row) csRes).
Proof.
  case_bool_decide as Hcase.
  - destruct Hcase as [-> | ->]; reflexivity.
  - destruct csRes as [|r0 tl]; [destruct Hcase; left; reflexivity|].
    unfold matchClusterScopedResources.
    destruct (Nat.eqb (length (r0 :: tl)) 1 && (Apigroup r0 =? "*") && (Kind r0 =? "*"))
      eqn:Hw.
    + exfalso. apply Hcase. right.
      apply andb_prop in Hw as [Hw Hk]. apply andb_prop in Hw as [Hlen Hg].
      destruct tl; [|discriminate Hlen]. f_equal.
      apply isFullWildcard_eq. unfold isFullWildcard. rewrite Hg, Hk. reflexivity.
    + rewrite denote_And_pair, asConjunct_matchApigroupKind. reflexivity.
Qed.

Section more_with_json.

Context `{JSON}.

(** *** The fallback of [matchNamespacedResources] *)

Lemma consolidatedClauses_Err userData userInfo keys k err :
  In k keys ->
  Unmarshal k = Err err ->
  exists unMarshalErr, consolidatedClauses userData userInfo keys = Err unMarshalErr.
Proof.
  induction keys as [|k0 keys IH]; intros Hin Herr; [destruct Hin|].
  cbn [consolidatedClauses]. destruct (Unmarshal k0) as [resList|e0] eqn:Hk0; [|eauto].
  destruct Hin as [->|Hin]; [congruence|].
  destruct (IH Hin Herr) as [e He]. rewrite He. eauto.
Qed.

(** X3.  When one key of the consolidated map does not unmarshal,
    [matchNamespacedResources] returns the disjunction of the
    per-namespace clauses alone, one for every namespace of the user:
    no clause built from the consolidated map is kept. *)
Theorem matchNamespacedResources_falls_back (userData : UserData) (userInfo : UserInfo)
    (k : string) (err : error) :
  is_Some (ConsolidatedNsResources userData !! k) ->
  Unmarshal k = Err err ->
  allNamespaces userData (GetKeys (NsResources userData)) = false ->
  matchNamespacedResources userData userInfo
    = Or (nonConsolidatedClauses userData (GetKeys (NsResources userData))) /\
  length (nonConsolidatedClauses userData (GetKeys (NsResources userData)))
    = size (NsResources userData).
Proof.
  intros Hk Herr Hall. split.
  - unfold matchNamespacedResources. rewrite Hall.
    destruct (Nat.ltb (size (NsResources userData)) 1) eqn:Hlt.
    { apply Nat.ltb_lt in Hlt.
      assert (Hempty : NsResources userData = ∅) by (apply map_size_empty_inv; lia).
      rewrite (proj2 (GetKeys_nil _) Hempty). reflexivity. }
    assert (Hin : In k (GetKeys (ConsolidatedNsResources userData)))
      by (apply list_elem_of_In, elem_of_GetKeys, Hk).
    destruct (consolidatedClauses_Err userData userInfo _ k err Hin Herr) as [e ->].
    reflexivity.
  - unfold nonConsolidatedClauses, GetKeys. rewrite length_map.
    rewrite (Permutation_length (merge_sort_Permutation _ _)).
    rewrite <- size_dom. reflexivity.
Qed.

(** X4.  The disjunction of the per-namespace clauses selects a row
    exactly when the row has a namespace of the user's map one of whose
    resources matches the row. *)
Theorem nonConsolidatedClauses_select db row (userData : UserData) :
  denote db row (Or (nonConsolidatedClauses userData (GetKeys (NsResources userData))))
  = if bool_decide (NsResources userData = ∅) then None
    else Some match data row !! "namespace" with
              | Some ns =>
                  match NsResources userData !! ns with
                  | Some rs => existsb (resourceMatches row) rs
                  | None => false
                  end
              | None => false
              end.
Proof.
  unfold nonConsolidatedClauses.
  rewrite (denote_Or_map db row _ _ _ (denote_namespaceClause db row userData)).
  case_bool_decide as Hempty.
  - rewrite (proj2 (GetKeys_nil _) Hempty). reflexivity.
  - destruct (GetKeys (NsResources userData)) as [|k0 keys] eqn:Hkeys.
    { destruct Hempty. apply GetKeys_nil, Hkeys. }
    rewrite <- Hkeys. clear k0 keys Hkeys. f_equal. apply eq_true_iff_eq.
    rewrite existsb_exists. split.
    + intros (ns & Hns & Hval). apply andb_prop in Hval as [Heq Hres].
      apply bool_decide_eq_true_1 in Heq. rewrite Heq.
      apply list_elem_of_In, elem_of_GetKeys in Hns as [rs Hrs].
      rewrite Hrs in Hres |- *. cbn [default] in Hres. unfold id in Hres.
      rewrite asConjunct_matchApigroupKind in Hres. exact Hres.
    + destruct (data row !! "namespace") as [ns|] eqn:Hns; [|discriminate].
      destruct (NsResources userData !! ns) as [rs|] eqn:Hrs; [|discriminate].
      intros Hres. exists ns. split.
      * apply list_elem_of_In, elem_of_GetKeys. eauto.
      * rewrite Hrs. cbn [default]. unfold id. rewrite asConjunct_matchApigroupKind, Hres.
        rewrite andb_true_r. apply bool_decide_eq_true_2. reflexivity.
Qed.

(** *** What [matchHubCluster] selects *)

Definition hasHubKey (row : Row) : bool :=
  bool_decide (is_Some (data row !! "_hubClusterResource")).

Lemma denote_matchHubCluster db row (userrbac : UserData) (userInfo : UserInfo) :
  CsResources userrbac <> [] \/ NsResources userrbac <> ∅ ->
  denote db row (matchHubCluster userrbac userInfo)
  = Some (hasHubKey row
          && match denote db row (matchClusterScopedResources (CsResources userrbac) userInfo),
                   denote db row (matchNamespacedResources userrbac userInfo) with
             | None, None => true
             | cs, ns => default false cs || default false ns
             end).
Proof.
  intros Haccess. unfold matchHubCluster.
  assert (Hguard : Nat.eqb (length (CsResources userrbac)) 0
                   && Nat.eqb (size (NsResources userrbac)) 0 = false).
  { apply andb_false_iff. destruct Haccess as [Hcs|Hns].
    - left. destruct (CsResources userrbac); [destruct Hcs; reflexivity|reflexivity].
    - right. apply Nat.eqb_neq. intros Hz. apply Hns, map_size_empty_inv, Hz. }
  rewrite Hguard, denote_And_pair. f_equal.
  change (holdsL db row "???" [C "data"; Literal "?"; Str "_hubClusterResource"])
    with (hasHubKey row).
  f_equal. unfold asConjunct, Or. rewrite denote_NewExpressionList, denote_List, !values_cons.
  destruct (denote db row (matchClusterScopedResources (CsResources userrbac) userInfo))
    as [cs|];
    destruct (denote db row (matchNamespacedResources userrbac userInfo)) as [ns|];
    cbn; rewrite ?orb_false_r; reflexivity.
Qed.

(** X5.  Whatever the user may access on the hub, [matchHubCluster]
    selects no row that lacks the key [_hubClusterResource]. *)
Theorem matchHubCluster_only_hub_rows db row (userrbac : UserData) (userInfo : UserInfo) :
  data row !! "_hubClusterResource" = None ->
  asDisjunct db row (matchHubCluster userrbac userInfo) = false.
Proof.
  intros Hrow. unfold asDisjunct.
  destruct (CsResources userrbac) as [|r rs] eqn:Hcs.
  - destruct (decide (NsResources userrbac = ∅)) as [Hns|Hns].
    + unfold matchHubCluster. rewrite Hcs, Hns, map_size_empty. reflexivity.
    + rewrite denote_matchHubCluster by (right; exact Hns).
      unfold hasHubKey. rewrite Hrow. reflexivity.
  - rewrite denote_matchHubCluster by (left; rewrite Hcs; discriminate).
    unfold hasHubKey. rewrite Hrow. reflexivity.
Qed.

(** X6.  With the single cluster-scoped entry "*"/"*", the clause of the
    cluster-scoped resources is left out of [matchHubCluster]: a hub row
    is selected exactly when the namespace predicate, as a condition,
    holds on it.  So a hub row without namespace is selected only when
    the namespace predicate renders nothing. *)
Theorem matchHubCluster_blanket_cluster_scope db row (userrbac : UserData)
    (userInfo : UserInfo) :
  CsResources userrbac = [fullWildcard] ->
  denote db row (matchHubCluster userrbac userInfo)
  = Some (hasHubKey row
          && asConjunct db row (matchNamespacedResources userrbac userInfo)).
Proof.
  intros Hcs. rewrite denote_matchHubCluster by (left; rewrite Hcs; discriminate).
  rewrite Hcs. unfold asConjunct.
  change (denote db row (matchClusterScopedResources [fullWildcard] userInfo)) with (@None bool).
  destruct (denote db row (matchNamespacedResources userrbac userInfo)); reflexivity.
Qed.

(** *** The groups of [consolidateNsResources] *)

Lemma NoDup_members k (entries : list (string * list Resource)) :
  NoDup (List.map fst entries) -> NoDup (members k entries).
Proof.
  unfold members. induction entries as [|[ns rs] rest IH]; intros Hnd; [constructor|].
  cbn [List.map fst] in Hnd. apply NoDup_cons in Hnd as [Hnotin Hnd].
  cbn [List.filter snd]. destruct (marshalsTo k rs); [|apply IH, Hnd].
  cbn [List.map fst]. apply NoDup_cons. split; [|apply IH, Hnd].
  intros Hin. apply Hnotin. apply list_elem_of_In in Hin. apply list_elem_of_In.
  apply in_map_iff in Hin as [[ns' rs'] [Heq Hin]]. cbn in Heq. subst ns'.
  apply filter_In in Hin as [Hin _]. apply in_map_iff. exists (ns, rs'). split; [reflexivity|exact Hin].
Qed.

(** X7.  When no resource list fails to marshal, the groups of
    [consolidateNsResources] partition the namespaces of the map: the
    group under a key holds, once each, exactly the namespaces whose
    resources marshal to the key, no group is empty, and every namespace
    is in the group of its own key. *)
Theorem consolidateNsResources_partition
    (nsResources : gmap string (list Resource))
    (entries : list (string * list Resource))
    (m : gmap string (list string)) (keys : list string) :
  entries ≡ₚ map_to_list nsResources ->
  consolidateNsResources_in entries = (m, keys, None) ->
  (forall k group, m !! k = Some group ->
     group <> [] /\ NoDup group /\
     forall ns, In ns group <->
       exists rs, nsResources !! ns = Some rs /\ Marshal rs = Ok k) /\
  (forall ns rs, nsResources !! ns = Some rs ->
     exists k group, Marshal rs = Ok k /\ m !! k = Some group /\ In ns group).
Proof.
  intros Hperm Hrun. unfold consolidateNsResources_in in Hrun.
  destruct (consolidate_from ∅ entries) as [m'|e] eqn:Hm; [|discriminate].
  injection Hrun as -> _.
  assert (Hentry : forall ns rs, In (ns, rs) entries <-> nsResources !! ns = Some rs).
  { intros ns rs. rewrite <- elem_of_map_to_list, <- Hperm, list_elem_of_In. reflexivity. }
  split.
  - intros k group Hgroup. split; [|split].
    + rewrite (consolidate_lookup _ _ _ Hm) in Hgroup.
      destruct (members k entries); [discriminate|]. injection Hgroup as <-. discriminate.
    + rewrite (consolidate_lookup _ _ _ Hm) in Hgroup.
      assert (Hnd : NoDup (members k entries)).
      { apply NoDup_members. rewrite Hperm. apply NoDup_fst_map_to_list. }
      destruct (members k entries); [discriminate|]. injection Hgroup as <-. exact Hnd.
    + intros ns. rewrite (consolidate_group _ _ _ _ ns Hm Hgroup).
      split; intros (rs & Hin & Hk); exists rs; (split; [apply Hentry, Hin|exact Hk]).
  - intros ns rs Hns. apply Hentry in Hns.
    assert (Hall : Forall (fun e => exists b, Marshal (snd e) = Ok b) entries)
      by (apply (proj1 (consolidate_from_Ok entries ∅)); eauto).
    rewrite List.Forall_forall in Hall. destruct (Hall (ns, rs) Hns) as [k Hk]. cbn in Hk.
    assert (Hsome : is_Some (m !! k)) by (apply (consolidate_is_Some _ _ _ Hm); eauto).
    destruct Hsome as [group Hgroup]. exists k, group.
    split; [exact Hk|]. split; [exact Hgroup|].
    apply (consolidate_group _ _ _ _ ns Hm Hgroup). eauto.
Qed.

(** X8.  When the resources of some namespace do not marshal,
    [consolidateNsResources] returns no map, no keys and the marshal
    error of one of the namespaces, in whatever order it visits the
    map. *)
Theorem consolidateNsResources_marshal_error
    (nsResources : gmap string (list Resource))
    (entries : list (string * list Resource)) (ns : string) (rs : list Resource)
    (err : error) :
  entries ≡ₚ map_to_list nsResources ->
  nsResources !! ns = Some rs ->
  Marshal rs = Err err ->
  exists ns' rs' err',
    nsResources !! ns' = Some rs' /\ Marshal rs' = Err err' /\
    consolidateNsResources_in entries = (∅, [], Some err').
Proof.
  intros Hperm Hns Herr.
  assert (Hin : In (ns, rs) entries).
  { apply list_elem_of_In. rewrite Hperm. apply elem_of_map_to_list, Hns. }
  assert (Hsub : forall ns' rs', In (ns', rs') entries -> nsResources !! ns' = Some rs').
  { intros ns' rs' Hin'. apply elem_of_map_to_list. rewrite <- Hperm.
    apply list_elem_of_In, Hin'. }
  assert (Hfrom : forall m0, exists ns' rs' err',
            nsResources !! ns' = Some rs' /\ Marshal rs' = Err err' /\
            consolidate_from m0 entries = Err err').
  { clear Hperm Hns. induction entries as [|[ns0 rs0] rest IH]; intros m0; [destruct Hin|].
    cbn [consolidate_from]. destruct (Marshal rs0) as [b|e0] eqn:Hb.
    - destruct Hin as [Heq|Hin]; [injection Heq as -> ->; congruence|].
      cbv zeta. apply IH; [exact Hin|]. intros ns' rs' Hin'. apply Hsub. right. exact Hin'.
    - exists ns0, rs0, e0. split; [apply Hsub; left; reflexivity|].
      split; [exact Hb|reflexivity]. }
  destruct (Hfrom ∅) as (ns' & rs' & err' & Hns' & Herr' & Hrun).
  exists ns', rs', err'. split; [exact Hns'|]. split; [exact Herr'|].
  unfold consolidateNsResources_in. rewrite Hrun. reflexivity.
Qed.

End more_with_json.

(** *** The name of the lookup table *)

Lemma ReplaceAll_spec (s : string) (old new : ascii) :
  String.length (ReplaceAll s old new) = String.length s /\
  (old <> new -> ~ In old (list_ascii_of_string (ReplaceAll s old new))).
Proof.
  induction s as [|c s [IHlen IHin]]; [split; [reflexivity|intros _ []]|].
  cbn [ReplaceAll String.length list_ascii_of_string]. split; [rewrite IHlen; reflexivity|].
  intros Hne [Hc|Hin]; [|exact (IHin Hne Hin)].
  destruct (Ascii.eqb_spec c old) as [->|Hco]; congruence.
Qed.

(** X9.  The name of a user's lookup table is "lookup_" followed by as
    many characters as the UID has, and holds no dash. *)
Theorem tableName_no_dash (uid : string) :
  String.length (tableName uid) = (7 + String.length uid)%nat /\
  ~ In "-"%char (list_ascii_of_string (tableName uid)).
Proof.
  unfold tableName. destruct (ReplaceAll_spec uid "-" "_") as [Hlen Hin]. split.
  - change (S (S (S (S (S (S (S (String.length (ReplaceAll uid "-" "_"))))))))
            = (7 + String.length uid)%nat).
    rewrite Hlen. reflexivity.
  - change (~ In "-"%char
              ("l" :: "o" :: "o" :: "k" :: "u" :: "p" :: "_"
               :: list_ascii_of_string (ReplaceAll uid "-" "_"))%char).
    intros Hd.
    repeat (destruct Hd as [Hd|Hd]; [discriminate Hd|]).
    apply Hin; [discriminate|exact Hd].
Qed.

(** *** Blanket cluster-scoped access *)

(** A node of the hub: a hub object without namespace and without
    apigroup. *)
Definition hubNodeRow : Row :=
  mkRow (<["_hubClusterResource" := "true"]> (<["kind_plural" := "nodes"]> ∅))
        "local-cluster".

(** The example snapshot with the cluster-scoped resources [cs]. *)
Definition exampleSnapshot (cs : list Resource) : UserData :=
  mkUserData cs exampleNsResources
    (fst (fst (consolidateNsResources (H := plain.json) exampleNsResources)))
    exampleGroups.

(** C2, on the code.  [matchClusterScopedResources] returns the same
    empty clause for no cluster-scoped resource and for the single entry
    "*"/"*", and [matchHubCluster] leaves that clause out of its
    disjunction.  So for a user with namespaced access to [ns1..ns3] the
    hub predicate does not select a node of the hub when the user may
    list every cluster-scoped resource, just as when the user may list
    none; it does select the node when the user may list nodes only, or
    "*"/"*" and one more resource.  And a user without any cluster-scoped
    resource whose only namespace is "*" is shown the node. *)
Example matchClusterScopedResources_blanket_is_no_access :
  let userInfo := mkUserInfo "user" "user-1" in
  let hub cs := matchHubCluster (H := plain.json) (exampleSnapshot cs) userInfo in
  matchClusterScopedResources [] userInfo
    = matchClusterScopedResources [fullWildcard] userInfo /\
  denote exampleDB hubNodeRow (hub [fullWildcard]) = Some false /\
  denote exampleDB hubNodeRow (hub []) = Some false /\
  denote exampleDB hubNodeRow (hub [mkResource "" "nodes"]) = Some true /\
  denote exampleDB hubNodeRow (hub [fullWildcard; mkResource "apps" "deployments"])
    = Some true /\
  denote exampleDB hubNodeRow (hub [mkResource "apps" "deployments"; fullWildcard])
    = Some true /\
  denote exampleDB hubNodeRow
    (matchHubCluster (H := plain.json)
       (mkUserData [] (<["*" := [mkResource "apps" "deployments"]]> ∅) ∅ ∅) userInfo)
    = Some true.
Proof. vm_compute. repeat split; reflexivity. Qed.

(** *** Examples for the properties above *)

Lemma matchNamespacedResources_falls_back_witness :
  let userData := mkUserData [] exampleNsResources (<["not json" := ["ns1"]]> ∅) ∅ in
  let userInfo := mkUserInfo "user" "user-1" in
  is_Some (ConsolidatedNsResources userData !! "not json") /\
  Unmarshal (JSON := plain.json) "not json" = Err "invalid character" /\
  allNamespaces userData (GetKeys (NsResources userData)) = false /\
  (matchNamespacedResources (H := plain.json) userData userInfo
     = Or (nonConsolidatedClauses userData (GetKeys (NsResources userData))) /\
   length (nonConsolidatedClauses userData (GetKeys (NsResources userData)))
     = size (NsResources userData)).
Proof.
  cbv zeta.
  assert (Hk : is_Some (ConsolidatedNsResources
                          (mkUserData [] exampleNsResources (<["not json" := ["ns1"]]> ∅) ∅)
                        !! "not json")) by (exists ["ns1"]; reflexivity).
  assert (Hall : allNamespaces (mkUserData [] exampleNsResources (<["not json" := ["ns1"]]> ∅) ∅)
                   (GetKeys exampleNsResources) = false) by (vm_compute; reflexivity).
  split; [exact Hk|]. split; [reflexivity|]. split; [exact Hall|].
  exact (matchNamespacedResources_falls_back (H := plain.json)
           (mkUserData [] exampleNsResources (<["not json" := ["ns1"]]> ∅) ∅)
           (mkUserInfo "user" "user-1") "not json" "invalid character" Hk eq_refl Hall).
Defined.

Lemma matchHubCluster_only_hub_rows_witness :
  let userrbac := mkUserData [mkResource "" "nodes"] exampleNsResources ∅ ∅ in
  let row := exampleRow "ns1" "g1" "k1" in
  data row !! "_hubClusterResource" = None /\
  asDisjunct exampleDB row
    (matchHubCluster (H := plain.json) userrbac (mkUserInfo "user" "user-1")) = false.
Proof.
  cbv zeta. split; [reflexivity|].
  apply (matchHubCluster_only_hub_rows (H := plain.json)). reflexivity.
Defined.

Lemma matchHubCluster_blanket_cluster_scope_witness :
  let userrbac := mkUserData [fullWildcard] exampleNsResources ∅ ∅ in
  let userInfo := mkUserInfo "user" "user-1" in
  let row := exampleRow "ns1" "g1" "k1" in
  CsResources userrbac = [fullWildcard] /\
  denote exampleDB row (matchHubCluster (H := plain.json) userrbac userInfo)
  = Some (hasHubKey row
          && asConjunct exampleDB row
               (matchNamespacedResources (H := plain.json) userrbac userInfo)).
Proof.
  cbv zeta. split; [reflexivity|].
  apply (matchHubCluster_blanket_cluster_scope (H := plain.json)). reflexivity.
Defined.

Lemma consolidateNsResources_partition_witness :
  let m : gmap string (list string) :=
    <[exampleKey [mkResource "g1" "k1"] := ["ns1"; "ns2"]]>
      (<[exampleKey [mkResource "g2" "k2"] := ["ns3"]]> ∅) in
  let keys := [exampleKey [mkResource "g1" "k1"]; exampleKey [mkResource "g2" "k2"]] in
  map_to_list exampleNsResources ≡ₚ map_to_list exampleNsResources /\
  consolidateNsResources_in (H := plain.json) (map_to_list exampleNsResources)
    = (m, keys, None) /\
  ((forall k group, m !! k = Some group ->
      group <> [] /\ NoDup group /\
      forall ns, In ns group <->
        exists rs, exampleNsResources !! ns = Some rs /\
                   Marshal (JSON := plain.json) rs = Ok k) /\
   (forall ns rs, exampleNsResources !! ns = Some rs ->
      exists k group,
        Marshal (JSON := plain.json) rs = Ok k /\ m !! k = Some group /\ In ns group)).
Proof.
  cbv zeta.
  assert (Hrun : consolidateNsResources_in (H := plain.json) (map_to_list exampleNsResources)
                 = (<[exampleKey [mkResource "g1" "k1"] := ["ns1"; "ns2"]]>
                      (<[exampleKey [mkResource "g2" "k2"] := ["ns3"]]> ∅),
                    [exampleKey [mkResource "g1" "k1"]; exampleKey [mkResource "g2" "k2"]],
                    None)) by (vm_compute; reflexivity).
  split; [reflexivity|]. split; [exact Hrun|].
  exact (consolidateNsResources_partition (H := plain.json) exampleNsResources
           (map_to_list exampleNsResources) _ _ (Permutation_refl _) Hrun).
Defined.

(** A codec that refuses resources of the core API group; only to show a
    marshal error. *)
Definition refusingJSON : JSON :=
  {| Marshal := fun rs =>
       if existsb (fun r => Apigroup r =? "") rs then Err "unsupported value"
       else plain.marshal rs;
     Unmarshal := plain.unmarshal |}.

Definition refusedNsResources : gmap string (list Resource) :=
  <["ns1" := [mkResource "apps" "deployments"]]> (<["ns2" := [mkResource "" "pods"]]> ∅).

Lemma consolidateNsResources_marshal_error_witness :
  map_to_list refusedNsResources ≡ₚ map_to_list refusedNsResources /\
  refusedNsResources !! "ns2" = Some [mkResource "" "pods"] /\
  Marshal (JSON := refusingJSON) [mkResource "" "pods"] = Err "unsupported value" /\
  exists ns' rs' err',
    refusedNsResources !! ns' = Some rs' /\ Marshal (JSON := refusingJSON) rs' = Err err' /\
    consolidateNsResources_in (H := refusingJSON) (map_to_list refusedNsResources)
      = (∅, [], Some err').
Proof.
  split; [reflexivity|]. split; [reflexivity|]. split; [reflexivity|].
  exact (consolidateNsResources_marshal_error (H := refusingJSON) refusedNsResources
           (map_to_list refusedNsResources) "ns2" [mkResource "" "pods"] "unsupported value"
           (Permutation_refl _) eq_refl eq_refl).
Defined.

End resolver.

(** ** The per-user permission cache (package rbac)

    Time is a count of nanoseconds since the Unix epoch; a
    [time.Duration] is a 64-bit count of nanoseconds.  The calls that
    leave the process (building a clientset, listing the namespaces of
    the hub, the access reviews) are answered by an environment and
    recorded in a trace; each may let the clock advance.  A pointer to a
    [userData] is a location of a heap. *)
Module rbac.

Local Open Scope Z_scope.

Definition error : Set := string.

Inductive result (A : Type) : Type :=
| Ok (a : A)
| Err (e : error).
Arguments Ok {A} a.
Arguments Err {A} e.

(** *** time *)

Definition Time : Set := Z.
Definition Duration : Set := Z.

(** The zero [time.Time]: January 1 of year 1, 00:00 UTC. *)
Definition zeroTime : Time := -62135596800 * 1000000000.

Definition wrap64 (z : Z) : Z := (z + 2 ^ 63) mod 2 ^ 64 - 2 ^ 63.

Definition Millisecond : Duration := 1000000.

(** [time.Duration(ms) * time.Millisecond] *)
Definition milliseconds (ms : Z) : Duration := wrap64 (wrap64 ms * Millisecond).

(** [t.Add(d)] and [t.Before(u)] *)
Definition Add (t : Time) (d : Duration) : Time := t + d.
Definition Before (t u : Time) : bool := t <? u.

(** *** Data *)

Record resource : Set := mkResource { apigroup : string; kind : string }.

(** An [AuthorizationV1Interface] value, named by a number. *)
Definition AuthzClient : Set := nat.

(** Contains data about the resources the user is allowed to access.  The
    three locks are not modelled. *)
Record userData : Type := mkUserData {
  managedClusters : gmap string string;
  csResources : list resource;
  nsResources : gmap string (list resource);
  clustersErr : option error;
  clustersUpdatedAt : Time;
  csrErr : option error;
  csrUpdatedAt : Time;
  nsrErr : option error;
  nsrUpdatedAt : Time;
  authzClient : option AuthzClient;
}.

(** [userData{}] *)
Definition emptyUserData : userData :=
  mkUserData ∅ [] ∅ None zeroTime None zeroTime None zeroTime None.

Definition set_managedClusters (v : gmap string string) (u : userData) : userData :=
  mkUserData v (csResources u) (nsResources u) (clustersErr u) (clustersUpdatedAt u)
    (csrErr u) (csrUpdatedAt u) (nsrErr u) (nsrUpdatedAt u) (authzClient u).
Definition set_csResources (v : list resource) (u : userData) : userData :=
  mkUserData (managedClusters u) v (nsResources u) (clustersErr u) (clustersUpdatedAt u)
    (csrErr u) (csrUpdatedAt u) (nsrErr u) (nsrUpdatedAt u) (authzClient u).
Definition set_nsResources (v : gmap string (list resource)) (u : userData) : userData :=
  mkUserData (managedClusters u) (csResources u) v (clustersErr u) (clustersUpdatedAt u)
    (csrErr u) (csrUpdatedAt u) (nsrErr u) (nsrUpdatedAt u) (authzClient u).
Definition set_clustersErr (v : option error) (u : userData) : userData :=
  mkUserData (managedClusters u) (csResources u) (nsResources u) v (clustersUpdatedAt u)
    (csrErr u) (csrUpdatedAt u) (nsrErr u) (nsrUpdatedAt u) (authzClient u).
Definition set_clustersUpdatedAt (v : Time) (u : userData) : userData :=
  mkUserData (managedClusters u) (csResources u) (nsResources u) (clustersErr u) v
    (csrErr u) (csrUpdatedAt u) (nsrErr u) (nsrUpdatedAt u) (authzClient u).
Definition set_csrErr (v : option error) (u : userData) : userData :=
  mkUserData (managedClusters u) (csResources u) (nsResources u) (clustersErr u)
    (clustersUpdatedAt u) v (csrUpdatedAt u) (nsrErr u) (nsrUpdatedAt u) (authzClient u).
Definition set_csrUpdatedAt (v : Time) (u : userData) : userData :=
  mkUserData (managedClusters u) (csResources u) (nsResources u) (clustersErr u)
    (clustersUpdatedAt u) (csrErr u) v (nsrErr u) (nsrUpdatedAt u) (authzClient u).
Definition set_nsrErr (v : option error) (u : userData) : userData :=
  mkUserData (managedClusters u) (csResources u) (nsResources u) (clustersErr u)
    (clustersUpdatedAt u) (csrErr u) (csrUpdatedAt u) v (nsrUpdatedAt u) (authzClient u).
Definition set_nsrUpdatedAt (v : Time) (u : userData) : userData :=
  mkUserData (managedClusters u) (csResources u) (nsResources u) (clustersErr u)
    (clustersUpdatedAt u) (csrErr u) (csrUpdatedAt u) (nsrErr u) v (authzClient u).
Definition set_authzClient (v : option AuthzClient) (u : userData) : userData :=
  mkUserData (managedClusters u) (csResources u) (nsResources u) (clustersErr u)
    (clustersUpdatedAt u) (csrErr u) (csrUpdatedAt u) (nsrErr u) (nsrUpdatedAt u) v.

(** The user of a token review: [tokenReview.Status.User]. *)
Record UserInfo : Set := mkUserInfo { Username : string; UID : string }.

(** The shared cache: the namespaces of the hub and the cluster-scoped
    resource kinds. *)
Record SharedData : Type := mkSharedData {
  namespaces : list string;
  nsErr : option error;
  shared_csResources : list resource;
}.

(** The [Cache]; [users] maps a UID to a pointer to its [userData]. *)
Record Cache : Type := mkCache {
  tokenReviews : gmap string UserInfo;
  users : gmap string nat;
  shared : SharedData;
}.

(** A namespace of the hub, and a rule of a [SelfSubjectRulesReview]. *)
Record Namespace : Type := mkNamespace { Name : string; Labels : gmap string string }.

Record ResourceRule : Set := mkResourceRule {
  Verbs : list string;
  APIGroups : list string;
  Resources : list string;
}.

(** *** The environment *)

Inductive Event : Set :=
| NewClientset                                          (* kubernetes.NewForConfig(cache.restConfig) *)
| ListNamespaces                                        (* clientset.CoreV1().Namespaces().List *)
| NewImpersonationClientset (username uid : string)     (* kubernetes.NewForConfig with Impersonate *)
| CreateRulesReview (client : AuthzClient) (ns : string)                 (* SelfSubjectRulesReviews().Create *)
| CreateAccessReview (client : AuthzClient) (apigroup kind : string).    (* SelfSubjectAccessReviews().Create *)

(** What the configuration and the API servers answer.  A typed client
    returns a result object (an empty one) also when it returns an
    error. *)
Record Env : Type := mkEnv {
  UserCacheTTL : Z;
  newClientset : option error;
  listNamespaces : list Namespace * option error;
  newImpersonationClientset : string -> string -> result AuthzClient;
  createRulesReview : AuthzClient -> string -> list ResourceRule * option error;
  createAccessReview : AuthzClient -> string -> string -> bool * option error;
  elapsed : Event -> N;
}.

Record World : Type := mkWorld { clock : Time; trace : list Event }.

(** A run returns a value and the world it leaves, or panics. *)
Inductive outcome (A : Type) : Type :=
| Returns (a : A) (w : World)
| Panics.
Arguments Returns {A} a w.
Arguments Panics {A}.

Definition M (A : Type) : Type := World -> outcome A.

Definition ret {A : Type} (a : A) : M A := fun w => Returns a w.

Definition bind {A B : Type} (m : M A) (f : A -> M B) : M B :=
  fun w =>
    match m w with
    | Returns a w' => f a w'
    | Panics => Panics
    end.

Definition panic {A : Type} : M A := fun _ => Panics.

Notation "x <- m ;; k" := (bind m (fun x => k))
  (at level 100, m at next level, right associativity).

(** [time.Now()] *)
Definition timeNow : M Time := fun w => Returns (clock w) w.

(** A call that leaves the process. *)
Definition call (env : Env) (ev : Event) : M unit :=
  fun w => Returns tt (mkWorld (clock w + Z.of_N (elapsed env ev)) (trace w ++ [ev])).

(** The entries a [range] over a map visits.  Go leaves the order
    unspecified; the cache functions are modelled with the order of
    [map_to_list]. *)
Definition range {V : Type} (m : gmap string V) : list (string * V) := map_to_list m.

(** [strings.Contains(s, substr)] *)
Definition Contains (s substr : string) : bool :=
  match String.index 0 substr s with
  | Some _ => true
  | None => false
  end.

(** *** The functions of the cache *)

Section with_env.

Variable env : Env.

(** [time.Duration(config.Cfg.UserCacheTTL) * time.Millisecond] *)
Definition ttl : Duration := milliseconds (UserCacheTTL env).

(** The test of [userCacheValid], for a [time.Now()] that reads [now]. *)
Definition userCacheValidAt (now : Time) (user : userData) : bool :=
  Before now (Add (csrUpdatedAt user) ttl) && Before now (Add (nsrUpdatedAt user) ttl).

Definition userCacheValid (user : userData) : M bool :=
  now <- timeNow ;; ret (userCacheValidAt now user).

(** helper funtion to get intersection *)
Definition intersection (a1 a2 : list string) : list string * option error :=
  (List.filter (fun x => existsb (String.eqb x) a2) a1, None).

(** helper function to get label values from managedCluster map *)
Definition getFromMap (managedClusterNames : gmap string string) (mapPartStr : string)
    : list string :=
  if String.eqb mapPartStr "keys" then List.map fst (range managedClusterNames)
  else if String.eqb mapPartStr "values" then List.map snd (range managedClusterNames)
  else [].

(** The inner loop of [getManagedClusters]: the first label of the
    namespace whose key contains "managedCluster". *)
Definition managedClusterLabel (labels : gmap string string) : option string :=
  List.find (fun l => Contains l "managedCluster") (List.map fst (range labels)).

(** The outer loop of [getManagedClusters] over [namespaceList.Items]. *)
Fixpoint managedClustersOf (m : gmap string string) (items : list Namespace)
    : gmap string string :=
  match items with
  | [] => m
  | namespace :: rest =>
      let m :=
        match managedClusterLabel (Labels namespace) with
        | Some l => <[Name namespace := l]> m
        | None => m
        end in
      managedClustersOf m rest
  end.

(** The test that the managed clusters of the user are still good. *)
Definition clustersCached (now : Time) (user : userData) : bool :=
  Nat.ltb 0 (size (managedClusters user))
  && Before now (Add (clustersUpdatedAt user) ttl)
  && match getFromMap (managedClusters user) "values" with
     | v :: _ => Contains v "managedCluster"
     | [] => false
     end.

(** [getManagedClusters] returns the user and the pair of results.  A
    [kubernetes.NewForConfig] that fails is only logged; the nil clientset
    then panics at [clientset.CoreV1()].  The write of [cache.restConfig]
    is left out: nothing here reads it. *)
Definition getManagedClusters (user : userData)
    : M (userData * (gmap string string * option error)) :=
  now <- timeNow ;;
  if clustersCached now user then
    let user := set_clustersErr None user in
    ret (user, (managedClusters user, clustersErr user))
  else
    _ <- call env NewClientset ;;
    let user := set_managedClusters ∅ user in
    match newClientset env with
    | Some _ => panic
    | None =>
        _ <- call env ListNamespaces ;;
        let namespaceList := fst (listNamespaces env) in
        let user := set_managedClusters (managedClustersOf (managedClusters user) namespaceList) user in
        now <- timeNow ;;
        let user := set_clustersUpdatedAt now user in
        let user := set_clustersErr None user in
        ret (user, (managedClusters user, clustersErr user))
    end.

(** [getImpersonationClientSet]; a token without token review panics. *)
Definition getImpersonationClientSet (cache : Cache) (user : userData) (clientToken : string)
    : M (userData * result AuthzClient) :=
  match authzClient user with
  | None =>
      match tokenReviews cache !! clientToken with
      | None => panic
      | Some info =>
          _ <- call env (NewImpersonationClientset (Username info) (UID info)) ;;
          match newImpersonationClientset env (Username info) (UID info) with
          | Err err => ret (user, Err err)
          | Ok client => ret (set_authzClient (Some client) user, Ok client)
          end
      end
  | Some client => ret (user, Ok client)
  end.

(** The resources one rule of a rules review lets the user list. *)
Definition listedResources (rules : ResourceRule) : list resource :=
  flat_map (fun verb =>
    if String.eqb verb "list" || String.eqb verb "*" then
      flat_map (fun res => List.map (fun api => mkResource api res) (APIGroups rules))
               (Resources rules)
    else []) (Verbs rules).

(** [m[ns] = append(m[ns], rs...)], one element at a time: no entry is
    made when there is nothing to append. *)
Definition appendAll (m : gmap string (list resource)) (ns : string) (rs : list resource)
    : gmap string (list resource) :=
  match rs with
  | [] => m
  | _ => <[ns := default [] (m !! ns) ++ rs]> m
  end.

(** The loop of [getNamespacedResources] over the namespaces. *)
Fixpoint reviewNamespaces (impersClientset : AuthzClient) (user : userData)
    (allNamespaces : list string) : M userData :=
  match allNamespaces with
  | [] => ret user
  | ns :: rest =>
      _ <- call env (CreateRulesReview impersClientset ns) ;;
      let rules := fst (createRulesReview env impersClientset ns) in
      let user :=
        set_nsResources (appendAll (nsResources user) ns (flat_map listedResources rules)) user in
      reviewNamespaces impersClientset user rest
  end.

(** The test that the namespaced resources of the user are still good. *)
Definition nsResourcesCached (now : Time) (user : userData) : bool :=
  Nat.ltb 0 (size (nsResources user)) && Before now (Add (nsrUpdatedAt user) ttl).

(** [getNamespacedResources] from the point where it holds [nsrLock],
    with the managed clusters it was given. *)
Definition getNamespacedResources_locked (cache : Cache) (user : userData)
    (managedClusterNamespaces : gmap string string) (clientToken : string)
    : M (userData * option error) :=
  now <- timeNow ;;
  if nsResourcesCached now user then
    let user := set_nsrErr None user in
    ret (user, nsrErr user)
  else
    let allNamespaces := namespaces (shared cache) in
    if Nat.eqb (length allNamespaces) 0 then
      ret (user, nsErr (shared cache))
    else
      let user := set_csrErr None user in
      r <- getImpersonationClientSet cache user clientToken ;;
      let user := fst r in
      match snd r with
      | Err err => ret (user, Some err)
      | Ok impersClientset =>
          let user := set_nsResources ∅ user in
          let managedClusterNs := List.map fst (range managedClusterNamespaces) in
          let allNamespaces := fst (intersection allNamespaces managedClusterNs) in
          user <- reviewNamespaces impersClientset user allNamespaces ;;
          now <- timeNow ;;
          let user := set_nsrUpdatedAt now user in
          ret (user, nsrErr user)
      end.

Definition getNamespacedResources (cache : Cache) (user : userData) (clientToken : string)
    : M (userData * option error) :=
  r <- getManagedClusters user ;;
  getNamespacedResources_locked cache (fst r) (fst (snd r)) clientToken.

Definition userAuthorizedListCSResource (authzClient : AuthzClient)
    (apigroup kind_plural : string) : M bool :=
  _ <- call env (CreateAccessReview authzClient apigroup kind_plural) ;;
  match createAccessReview env authzClient apigroup kind_plural with
  | (_, Some _) => ret false
  | (allowed, None) => ret allowed
  end.

(** The loop of [getClusterScopedResources] over the shared resources. *)
Fixpoint reviewResources (impersClientset : AuthzClient) (user : userData)
    (clusterScopedResources : list resource) : M userData :=
  match clusterScopedResources with
  | [] => ret user
  | res :: rest =>
      allowed <- userAuthorizedListCSResource impersClientset (apigroup res) (kind res) ;;
      let user :=
        if allowed then
          set_csResources (csResources user ++ [mkResource (apigroup res) (kind res)]) user
        else user in
      reviewResources impersClientset user rest
  end.

Definition getClusterScopedResources (cache : Cache) (user : userData) (clientToken : string)
    : M (userData * option error) :=
  let user := set_csrErr None user in
  let clusterScopedResources := shared_csResources (shared cache) in
  if Nat.eqb (length clusterScopedResources) 0 then
    ret (user, csrErr user)
  else
    r <- getImpersonationClientSet cache user clientToken ;;
    let user := fst r in
    match snd r with
    | Err err =>
        let user := set_csrErr (Some err) user in
        ret (user, csrErr user)
    | Ok impersClientset =>
        let user := set_csResources [] user in
        user <- reviewResources impersClientset user clusterScopedResources ;;
        now <- timeNow ;;
        let user := set_csrUpdatedAt now user in
        ret (user, csrErr user)
    end.

(** The heap of [userData] objects and the cache that points into it. *)
Record Store : Type := mkStore { cache : Cache; heap : gmap nat userData }.

(** [&userData{}]: a location the heap does not use yet. *)
Definition newLoc (h : gmap nat userData) : nat := fresh (dom h).

(** The refresh of [GetUserData]: what follows the [else] branch, for the
    new object at [l]. *)
Definition refreshUserData (c : Cache) (user : userData) (clientToken : string)
    : M (userData * option error) :=
  r <- getNamespacedResources c user clientToken ;;
  match snd r with
  | None => getClusterScopedResources c (fst r) clientToken
  | Some err => ret (fst r, Some err)
  end.

(** [GetUserData] returns the store it leaves, the pointer to the user's
    data and the error. *)
Definition GetUserData (s : Store) (clientToken : string) (authzClient : option AuthzClient)
    : M (Store * nat * option error) :=
  match tokenReviews (cache s) !! clientToken with
  | None => panic
  | Some info =>
      let uid := UID info in
      let cached :=
        match users (cache s) !! uid with
        | Some l => match heap s !! l with Some u => Some (l, u) | None => None end
        | None => None
        end in
      valid <- match cached with
               | Some (_, cachedUserData) => userCacheValid cachedUserData
               | None => ret false
               end ;;
      match cached, valid with
      | Some (l, _), true => ret (s, l, None)
      | _, _ =>
          let l := newLoc (heap s) in
          let user := emptyUserData in
          let c := mkCache (tokenReviews (cache s)) (<[uid := l]> (users (cache s)))
                           (shared (cache s)) in
          let user :=
            match authzClient with
            | Some client => set_authzClient (Some client) user
            | None => user
            end in
          r <- refreshUserData c user clientToken ;;
          ret (mkStore c (<[l := fst r]> (heap s)), l, snd r)
      end
  end.

End with_env.

(** *** Time within the range of a [time.Duration] *)

Definition ttlInRange (env : Env) : Prop :=
  - 2 ^ 63 <= UserCacheTTL env * Millisecond < 2 ^ 63.

Lemma wrap64_small z : - 2 ^ 63 <= z < 2 ^ 63 -> wrap64 z = z.
Proof. intros Hz. unfold wrap64. rewrite Z.mod_small; lia. Qed.

Lemma ttl_in_range env : ttlInRange env -> ttl env = UserCacheTTL env * Millisecond.
Proof.
  unfold ttlInRange, ttl, milliseconds, Millisecond. intros Hr.
  rewrite (wrap64_small (UserCacheTTL env)) by lia.
  apply wrap64_small. exact Hr.
Qed.

Lemma userCacheValidAt_iff env now user :
  userCacheValidAt env now user = true <->
  now < csrUpdatedAt user + ttl env /\ now < nsrUpdatedAt user + ttl env.
Proof.
  unfold userCacheValidAt, Before, Add. rewrite andb_true_iff, !Z.ltb_lt. reflexivity.
Qed.

(** *** The trace only grows *)

Definition grows {A : Type} (m : M A) : Prop :=
  forall w a w', m w = Returns a w' -> exists evs, trace w' = trace w ++ evs.

Lemma grows_ret {A : Type} (a : A) : grows (ret a).
Proof. intros w a' w' [= _ <-]. exists []. rewrite List.app_nil_r. reflexivity. Qed.

Lemma grows_panic {A : Type} : grows (@panic A).
Proof. intros w a w' [=]. Qed.

Lemma grows_timeNow : grows timeNow.
Proof. intros w a w' [= _ <-]. exists []. rewrite List.app_nil_r. reflexivity. Qed.

Lemma grows_call env ev : grows (call env ev).
Proof. intros w a w' [= _ <-]. exists [ev]. reflexivity. Qed.

Lemma grows_bind {A B : Type} (m : M A) (f : A -> M B) :
  grows m -> (forall a, grows (f a)) -> grows (bind m f).
Proof.
  intros Hm Hf w b w' Hrun. unfold bind in Hrun.
  destruct (m w) as [a w1|] eqn:Hmw; [|discriminate].
  destruct (Hm _ _ _ Hmw) as [evs1 H1]. destruct (Hf a _ _ _ Hrun) as [evs2 H2].
  exists (evs1 ++ evs2). rewrite H2, H1, List.app_assoc. reflexivity.
Qed.

Create HintDb grows.

#[local] Hint Resolve grows_ret grows_panic grows_timeNow grows_call : grows.

Ltac grows_step :=
  match goal with
  | |- grows (bind _ _) => apply grows_bind; [|intros ?]
  | |- grows (if ?b then _ else _) => destruct b
  | |- grows (match ?x with _ => _ end) => destruct x
  | |- grows _ => solve [auto with grows]
  end.

Lemma grows_getManagedClusters env user : grows (getManagedClusters env user).
Proof. unfold getManagedClusters. repeat grows_step. Qed.

Lemma grows_getImpersonationClientSet env c user token :
  grows (getImpersonationClientSet env c user token).
Proof. unfold getImpersonationClientSet. repeat grows_step. Qed.

Lemma grows_reviewNamespaces env client allNamespaces :
  forall user, grows (reviewNamespaces env client user allNamespaces).
Proof.
  induction allNamespaces as [|ns rest IH]; intros user; cbn [reviewNamespaces].
  - auto with grows.
  - apply grows_bind; [auto with grows|]. intros _. apply IH.
Qed.

Lemma grows_reviewResources env client resources :
  forall user, grows (reviewResources env client user resources).
Proof.
  induction resources as [|res rest IH]; intros user; cbn [reviewResources].
  - auto with grows.
  - apply grows_bind; [|intros allowed; apply IH].
    unfold userAuthorizedListCSResource. repeat grows_step.
Qed.

#[local] Hint Resolve grows_getManagedClusters grows_getImpersonationClientSet
  grows_reviewNamespaces grows_reviewResources : grows.

Lemma grows_getNamespacedResources_locked env c user clusters token :
  grows (getNamespacedResources_locked env c user clusters token).
Proof. unfold getNamespacedResources_locked. repeat grows_step. Qed.

#[local] Hint Resolve grows_getNamespacedResources_locked : grows.

Lemma grows_getNamespacedResources env c user token :
  grows (getNamespacedResources env c user token).
Proof. unfold getNamespacedResources. repeat grows_step. Qed.

Lemma grows_getClusterScopedResources env c user token :
  grows (getClusterScopedResources env c user token).
Proof. unfold getClusterScopedResources. repeat grows_step. Qed.

#[local] Hint Resolve grows_getNamespacedResources grows_getClusterScopedResources : grows.

Lemma grows_refreshUserData env c user token : grows (refreshUserData env c user token).
Proof. unfold refreshUserData. repeat grows_step. Qed.

(** *** What cannot panic *)

Definition safe {A : Type} (m : M A) : Prop := forall w, m w <> Panics.

Lemma safe_ret {A : Type} (a : A) : safe (ret a).
Proof. intros w. discriminate. Qed.

Lemma safe_timeNow : safe timeNow.
Proof. intros w. discriminate. Qed.

Lemma safe_call env ev : safe (call env ev).
Proof. intros w. discriminate. Qed.

Lemma safe_bind {A B : Type} (m : M A) (f : A -> M B) :
  safe m -> (forall a, safe (f a)) -> safe (bind m f).
Proof.
  intros Hm Hf w. unfold bind. destruct (m w) as [a w1|] eqn:Hmw.
  - apply Hf.
  - destruct (Hm w Hmw).
Qed.

Create HintDb safe.

#[local] Hint Resolve safe_ret safe_timeNow safe_call : safe.

Ltac safe_step :=
  match goal with
  | |- safe (bind _ _) => apply safe_bind; [|intros ?]
  | |- safe (if ?b then _ else _) => destruct b
  | |- safe (match ?x with _ => _ end) => destruct x
  | |- safe _ => solve [auto with safe]
  end.

Lemma safe_getImpersonationClientSet env c user token :
  is_Some (tokenReviews c !! token) ->
  safe (getImpersonationClientSet env c user token).
Proof.
  intros [info Hinfo]. unfold getImpersonationClientSet. rewrite Hinfo.
  repeat safe_step.
Qed.

Lemma safe_reviewNamespaces env client allNamespaces :
  forall user, safe (reviewNamespaces env client user allNamespaces).
Proof.
  induction allNamespaces as [|ns rest IH]; intros user; cbn [reviewNamespaces].
  - auto with safe.
  - apply safe_bind; [auto with safe|]. intros _. apply IH.
Qed.

Lemma safe_reviewResources env client resources :
  forall user, safe (reviewResources env client user resources).
Proof.
  induction resources as [|res rest IH]; intros user; cbn [reviewResources].
  - auto with safe.
  - apply safe_bind; [|intros allowed; apply IH].
    unfold userAuthorizedListCSResource. repeat safe_step.
Qed.

#[local] Hint Resolve safe_getImpersonationClientSet safe_reviewNamespaces
  safe_reviewResources : safe.

Lemma safe_getNamespacedResources_locked env c user clusters token :
  is_Some (tokenReviews c !! token) ->
  safe (getNamespacedResources_locked env c user clusters token).
Proof. intros Htoken. unfold getNamespacedResources_locked. repeat safe_step. Qed.

Lemma safe_getClusterScopedResources env c user token :
  is_Some (tokenReviews c !! token) ->
  safe (getClusterScopedResources env c user token).
Proof. intros Htoken. unfold getClusterScopedResources. repeat safe_step. Qed.

(** *** A miss of the managed clusters *)

(** The world after the clientset was built and the namespaces were
    listed. *)
Definition afterListing (env : Env) (w : World) : World :=
  mkWorld (clock w + Z.of_N (elapsed env NewClientset) + Z.of_N (elapsed env ListNamespaces))
          ((trace w ++ [NewClientset]) ++ [ListNamespaces]).

(** The user after the managed clusters were listed at [w]. *)
Definition listedClusters (env : Env) (w : World) (user : userData) : userData :=
  set_clustersErr None
    (set_clustersUpdatedAt (clock (afterListing env w))
       (set_managedClusters (managedClustersOf ∅ (fst (listNamespaces env)))
          (set_managedClusters ∅ user))).

Lemma getManagedClusters_miss env user w :
  clustersCached env (clock w) user = false ->
  getManagedClusters env user w =
  match newClientset env with
  | Some _ => Panics
  | None =>
      Returns (listedClusters env w user,
               (managedClusters (listedClusters env w user), None))
              (afterListing env w)
  end.
Proof.
  intros Hmiss. unfold getManagedClusters, bind, timeNow. rewrite Hmiss.
  cbn [call]. destruct (newClientset env); reflexivity.
Qed.

Lemma getManagedClusters_hit env user w :
  clustersCached env (clock w) user = true ->
  getManagedClusters env user w =
  Returns (set_clustersErr None user, (managedClusters user, None)) w.
Proof.
  intros Hhit. unfold getManagedClusters, bind, timeNow. rewrite Hhit. reflexivity.
Qed.

(** The refresh of a user without managed clusters starts by building a
    clientset and listing the namespaces of the hub; it panics exactly
    when the clientset cannot be built. *)
Lemma refreshUserData_starts env c user token w :
  is_Some (tokenReviews c !! token) ->
  clustersCached env (clock w) user = false ->
  match refreshUserData env c user token w with
  | Returns _ w' =>
      newClientset env = None /\
      exists evs, trace w' = trace w ++ NewClientset :: ListNamespaces :: evs
  | Panics => is_Some (newClientset env)
  end.
Proof.
  intros Htoken Hmiss.
  unfold refreshUserData, getNamespacedResources. unfold bind at 1 2.
  rewrite (getManagedClusters_miss _ _ _ Hmiss).
  destruct (newClientset env) as [err|]; [eauto|].
  cbn [fst snd].
  set (user1 := listedClusters env w user).
  destruct (getNamespacedResources_locked env c user1 (managedClusters user1) token
              (afterListing env w)) as [r w1|] eqn:Hlocked.
  - destruct (grows_getNamespacedResources_locked _ _ _ _ _ _ _ _ Hlocked) as [evs1 H1].
    cbn [afterListing trace] in H1.
    destruct (snd r) as [err|].
    + cbn [ret]. split; [reflexivity|]. exists evs1.
      rewrite H1, <- !List.app_assoc. reflexivity.
    + destruct (getClusterScopedResources env c (fst r) token w1) as [r2 w2|] eqn:Hcs.
      * destruct (grows_getClusterScopedResources _ _ _ _ _ _ _ Hcs) as [evs2 H2].
        split; [reflexivity|]. exists (evs1 ++ evs2).
        rewrite H2, H1, <- !List.app_assoc. reflexivity.
      * destruct (safe_getClusterScopedResources _ _ _ _ Htoken _ Hcs).
  - destruct (safe_getNamespacedResources_locked _ _ _ _ _ Htoken _ Hlocked).
Qed.

(** *** GetUserData: the cached snapshot and its refresh *)

(** The cache and the new user of the [else] branch of [GetUserData]. *)
Definition newCache (s : Store) (uid : string) : Cache :=
  mkCache (tokenReviews (cache s)) (<[uid := newLoc (heap s)]> (users (cache s)))
          (shared (cache s)).

Definition newUser (authzClient : option AuthzClient) : userData :=
  match authzClient with
  | Some client => set_authzClient (Some client) emptyUserData
  | None => emptyUserData
  end.

Lemma GetUserData_valid env s token authz w info l u :
  tokenReviews (cache s) !! token = Some info ->
  users (cache s) !! UID info = Some l ->
  heap s !! l = Some u ->
  userCacheValidAt env (clock w) u = true ->
  GetUserData env s token authz w = Returns (s, l, None) w.
Proof.
  intros Htoken Hl Hu Hvalid. unfold GetUserData. rewrite Htoken. cbv zeta.
  rewrite Hl, Hu. cbv beta iota delta [bind userCacheValid timeNow ret].
  rewrite Hvalid. reflexivity.
Qed.

Lemma GetUserData_expired env s token authz w info l u :
  tokenReviews (cache s) !! token = Some info ->
  users (cache s) !! UID info = Some l ->
  heap s !! l = Some u ->
  userCacheValidAt env (clock w) u = false ->
  GetUserData env s token authz w =
  match refreshUserData env (newCache s (UID info)) (newUser authz) token w with
  | Returns r w' =>
      Returns (mkStore (newCache s (UID info)) (<[newLoc (heap s) := fst r]> (heap s)),
               newLoc (heap s), snd r) w'
  | Panics => Panics
  end.
Proof.
  intros Htoken Hl Hu Hvalid. unfold GetUserData. rewrite Htoken. cbv zeta.
  rewrite Hl, Hu. unfold bind at 1. cbv beta iota delta [bind userCacheValid timeNow ret].
  rewrite Hvalid. reflexivity.
Qed.

Lemma newUser_clusters_miss env now authz : clustersCached env now (newUser authz) = false.
Proof. destruct authz; reflexivity. Qed.

Lemma newLoc_fresh (h : gmap nat userData) l u : h !! l = Some u -> newLoc h <> l.
Proof.
  intros Hl Heq. assert (Hin : l ∈ dom h) by (apply elem_of_dom; eauto).
  rewrite <- Heq in Hin. exact (is_fresh (dom h) Hin).
Qed.


(** C10.  [userCacheValid] reads the update times of the cluster-scoped
    and of the namespaced resources only.  When the clock is before both
    of them plus the time to live, [GetUserData] returns the cached
    snapshot without any call and without any change, whatever the update
    time of its managed clusters is. *)
Theorem GetUserData_ignores_clusters_age env s w token authz info l u :
  tokenReviews (cache s) !! token = Some info ->
  users (cache s) !! UID info = Some l ->
  heap s !! l = Some u ->
  clock w < csrUpdatedAt u + ttl env ->
  clock w < nsrUpdatedAt u + ttl env ->
  (forall now u1 u2,
     csrUpdatedAt u1 = csrUpdatedAt u2 ->
     nsrUpdatedAt u1 = nsrUpdatedAt u2 ->
     userCacheValidAt env now u1 = userCacheValidAt env now u2) /\
  forall t : Time,
    let s' := mkStore (cache s) (<[l := set_clustersUpdatedAt t u]> (heap s)) in
    GetUserData env s' token authz w = Returns (s', l, None) w.
Proof.
  intros Htoken Hl Hu Hcsr Hnsr. split.
  - intros now u1 u2 H1 H2. unfold userCacheValidAt. rewrite H1, H2. reflexivity.
  - intros t s'.
    apply (GetUserData_valid env s' token authz w info l (set_clustersUpdatedAt t u)).
    + exact Htoken.
    + exact Hl.
    + cbn [heap s']. apply lookup_insert_eq.
    + apply userCacheValidAt_iff. cbn [csrUpdatedAt nsrUpdatedAt set_clustersUpdatedAt].
      split; assumption.
Qed.

(** *** The keys of the namespaced resources *)

(** Every namespace of the user's namespaced resources is a namespace of
    the shared cache and one of the user's managed clusters. *)
Definition keysWithin (c : Cache) (user : userData) : Prop :=
  forall ns, is_Some (nsResources user !! ns) ->
    In ns (namespaces (shared c)) /\ is_Some (managedClusters user !! ns).

Lemma appendAll_is_Some m ns rs k :
  is_Some (appendAll m ns rs !! k) -> k = ns \/ is_Some (m !! k).
Proof.
  unfold appendAll. destruct rs as [|r rs]; [right; assumption|].
  destruct (decide (ns = k)) as [->|Hne]; [left; reflexivity|].
  rewrite lookup_insert_ne by exact Hne. right. assumption.
Qed.

Lemma getManagedClusters_frame env user w r w' :
  getManagedClusters env user w = Returns r w' ->
  fst (snd r) = managedClusters (fst r) /\ nsResources (fst r) = nsResources user.
Proof.
  destruct (clustersCached env (clock w) user) eqn:Hc.
  - rewrite (getManagedClusters_hit _ _ _ Hc). intros [= <- _]. split; reflexivity.
  - rewrite (getManagedClusters_miss _ _ _ Hc). destruct (newClientset env); [discriminate|].
    intros [= <- _]. split; reflexivity.
Qed.

Lemma getImpersonationClientSet_frame env c user token w r w' :
  getImpersonationClientSet env c user token w = Returns r w' ->
  managedClusters (fst r) = managedClusters user /\ nsResources (fst r) = nsResources user.
Proof.
  unfold getImpersonationClientSet.
  destruct (authzClient user) as [client|].
  - intros [= <- _]. split; reflexivity.
  - destruct (tokenReviews c !! token) as [info|]; [|discriminate].
    unfold bind, call.
    destruct (newImpersonationClientset env (Username info) (UID info));
      intros [= <- _]; split; reflexivity.
Qed.

Lemma reviewNamespaces_keys env client allNamespaces :
  forall user w user' w',
    reviewNamespaces env client user allNamespaces w = Returns user' w' ->
    managedClusters user' = managedClusters user /\
    forall ns, is_Some (nsResources user' !! ns) ->
      is_Some (nsResources user !! ns) \/ In ns allNamespaces.
Proof.
  induction allNamespaces as [|ns0 rest IH]; intros user w user' w' Hrun.
  - injection Hrun as <- _. split; [reflexivity|]. intros ns Hns. left. exact Hns.
  - cbn [reviewNamespaces] in Hrun. unfold bind at 1 in Hrun. cbn [call] in Hrun.
    apply IH in Hrun as [Hmc Hkeys]. split; [exact Hmc|].
    intros ns Hns. destruct (Hkeys ns Hns) as [Hold|Hin].
    + cbn [nsResources set_nsResources] in Hold.
      apply appendAll_is_Some in Hold as [->|Hold]; [right; left; reflexivity|left; exact Hold].
    + right. right. exact Hin.
Qed.

Lemma in_intersection a1 a2 x :
  In x (fst (intersection a1 a2)) <-> In x a1 /\ In x a2.
Proof.
  unfold intersection. cbn [fst]. rewrite filter_In, existsb_exists. split.
  - intros [H1 (y & Hy & Heq)]. apply String.eqb_eq in Heq. subst y. split; assumption.
  - intros [H1 H2]. split; [exact H1|]. exists x. split; [exact H2|apply String.eqb_refl].
Qed.

Lemma getNamespacedResources_locked_keys env c user clusters token w r w' :
  getNamespacedResources_locked env c user clusters token w = Returns r w' ->
  managedClusters (fst r) = managedClusters user /\
  (nsResources (fst r) = nsResources user \/
   forall ns, is_Some (nsResources (fst r) !! ns) ->
     In ns (namespaces (shared c)) /\ is_Some (clusters !! ns)).
Proof.
  unfold getNamespacedResources_locked. unfold bind at 1. cbn [timeNow].
  destruct (nsResourcesCached env (clock w) user).
  { intros [= <- _]. split; [reflexivity|left; reflexivity]. }
  destruct (Nat.eqb (length (namespaces (shared c))) 0).
  { intros [= <- _]. split; [reflexivity|left; reflexivity]. }
  cbv zeta. unfold bind at 1.
  destruct (getImpersonationClientSet env c (set_csrErr None user) token w)
    as [ri wi|] eqn:Himp; [|discriminate].
  apply getImpersonationClientSet_frame in Himp as [Hmc Hns].
  cbn [managedClusters nsResources set_csrErr] in Hmc, Hns.
  destruct (snd ri) as [client|err].
  2:{ intros [= <- _]. cbn [fst]. split; [exact Hmc|left; exact Hns]. }
  unfold bind at 1.
  destruct (reviewNamespaces env client (set_nsResources ∅ (fst ri))
              (fst (intersection (namespaces (shared c)) (List.map fst (range clusters)))) wi)
    as [user' wr|] eqn:Hrev; [|discriminate].
  apply reviewNamespaces_keys in Hrev as [Hmc' Hkeys].
  cbn [managedClusters nsResources set_nsResources] in Hmc', Hkeys.
  unfold bind, timeNow, ret. intros [= <- _]. cbn [fst managedClusters nsResources set_nsrUpdatedAt].
  split; [congruence|]. right. intros ns Hsome.
  destruct (Hkeys ns Hsome) as [Hold|Hin].
  - rewrite lookup_empty in Hold. destruct Hold as [? [=]].
  - apply in_intersection in Hin as [Hshared Hcl]. split; [exact Hshared|].
    apply in_map_iff in Hcl as [[ns' v] [Heq Hin]]. cbn in Heq. subst ns'.
    unfold range in Hin. apply list_elem_of_In, elem_of_map_to_list in Hin. eauto.
Qed.

(** C8.  A run of [getNamespacedResources] either leaves the map of
    namespaced resources as it was (the map was still cached, the shared
    cache has no namespace, or no impersonation client could be made), or
    leaves a map all of whose keys are namespaces of the shared cache and
    managed clusters of the user as listed in this run.  Started on a user
    without namespaced resources, as [GetUserData] starts it, it always
    leaves such a map. *)
Theorem getNamespacedResources_keys env c user token w r w' :
  getNamespacedResources env c user token w = Returns r w' ->
  (nsResources (fst r) = nsResources user \/ keysWithin c (fst r)) /\
  (nsResources user = ∅ -> keysWithin c (fst r)).
Proof.
  intros Hrun. unfold getNamespacedResources in Hrun. unfold bind at 1 in Hrun.
  destruct (getManagedClusters env user w) as [rm wm|] eqn:Hmc; [|discriminate].
  apply getManagedClusters_frame in Hmc as [Hret Hns].
  apply getNamespacedResources_locked_keys in Hrun as [Hmc' Hkeys].
  assert (Hor : nsResources (fst r) = nsResources user \/ keysWithin c (fst r)).
  { destruct Hkeys as [Hsame|Hkeys]; [left; congruence|].
    right. intros ns Hsome. rewrite Hmc', <- Hret. apply Hkeys, Hsome. }
  split; [exact Hor|]. intros Hempty.
  destruct Hor as [Hsame|Hwithin]; [|exact Hwithin].
  intros ns Hsome. rewrite Hsame, Hempty, lookup_empty in Hsome. destruct Hsome as [? [=]].
Qed.

(** *** An example cache *)

Definition exampleEnv : Env :=
  mkEnv 60000 None
        ([mkNamespace "cluster-a" (<["managedCluster" := "true"]> ∅);
          mkNamespace "default" ∅], None)
        (fun _ _ => Ok 7%nat)
        (fun _ _ => ([mkResourceRule ["list"] ["apps"] ["deployments"]], None))
        (fun _ _ _ => (true, None))
        (fun _ => 0%N).

Definition exampleShared : SharedData :=
  mkSharedData ["cluster-a"; "default"] None [mkResource "" "nodes"].

Definition exampleUser (clusters csr nsr : Time) : userData :=
  mkUserData (<["cluster-a" := "managedCluster"]> ∅)
             [mkResource "" "nodes"]
             (<["cluster-a" := [mkResource "apps" "deployments"]]> ∅)
             None clusters None csr None nsr (Some 7%nat).

Definition exampleStore (user : userData) : Store :=
  mkStore (mkCache (<["token" := mkUserInfo "user" "uid-1"]> ∅)
                   (<["uid-1" := 0%nat]> ∅)
                   exampleShared)
          (<[0%nat := user]> ∅).


Lemma GetUserData_ignores_clusters_age_witness :
  let env := exampleEnv in
  let u := exampleUser 0 1000 1000 in
  let s := exampleStore u in
  let w := mkWorld 2000 [] in
  tokenReviews (cache s) !! "token" = Some (mkUserInfo "user" "uid-1") /\
  users (cache s) !! "uid-1" = Some 0%nat /\
  heap s !! 0%nat = Some u /\
  clock w < csrUpdatedAt u + ttl env /\
  clock w < nsrUpdatedAt u + ttl env /\
  ((forall now u1 u2,
      csrUpdatedAt u1 = csrUpdatedAt u2 ->
      nsrUpdatedAt u1 = nsrUpdatedAt u2 ->
      userCacheValidAt env now u1 = userCacheValidAt env now u2) /\
   forall t : Time,
     let s' := mkStore (cache s) (<[0%nat := set_clustersUpdatedAt t u]> (heap s)) in
     GetUserData env s' "token" None w = Returns (s', 0%nat, None) w).
Proof.
  cbv zeta.
  assert (Hcsr : 2000 < 1000 + ttl exampleEnv) by (vm_compute; reflexivity).
  split; [reflexivity|]. split; [reflexivity|]. split; [reflexivity|].
  split; [exact Hcsr|]. split; [exact Hcsr|].
  exact (GetUserData_ignores_clusters_age exampleEnv (exampleStore (exampleUser 0 1000 1000))
           (mkWorld 2000 []) "token" None (mkUserInfo "user" "uid-1") 0%nat
           (exampleUser 0 1000 1000) eq_refl eq_refl eq_refl Hcsr Hcsr).
Defined.

Definition exampleRefreshed : userData :=
  mkUserData (<["cluster-a" := "managedCluster"]> ∅)
             []
             (<["cluster-a" := [mkResource "apps" "deployments"]]> ∅)
             None 5000 None zeroTime None 5000 (Some 7%nat).

Lemma getNamespacedResources_keys_witness :
  let c := cache (exampleStore emptyUserData) in
  let w := mkWorld 5000 [] in
  let w' := mkWorld 5000 [NewClientset; ListNamespaces;
                          NewImpersonationClientset "user" "uid-1";
                          CreateRulesReview 7%nat "cluster-a"] in
  getNamespacedResources exampleEnv c emptyUserData "token" w
    = Returns (exampleRefreshed, None) w' /\
  ((nsResources exampleRefreshed = nsResources emptyUserData \/ keysWithin c exampleRefreshed) /\
   (nsResources emptyUserData = ∅ -> keysWithin c exampleRefreshed)).
Proof.
  cbv zeta.
  assert (Hrun : getNamespacedResources exampleEnv (cache (exampleStore emptyUserData))
                   emptyUserData "token" (mkWorld 5000 [])
                 = Returns (exampleRefreshed, None)
                     (mkWorld 5000 [NewClientset; ListNamespaces;
                                    NewImpersonationClientset "user" "uid-1";
                                    CreateRulesReview 7%nat "cluster-a"]))
    by (vm_compute; reflexivity).
  split; [exact Hrun|].
  exact (getNamespacedResources_keys exampleEnv (cache (exampleStore emptyUserData))
           emptyUserData "token" (mkWorld 5000 []) (exampleRefreshed, None) _ Hrun).
Defined.

(** A first request at time 5000 fills the cache; a request one
    nanosecond before the time to live has passed is answered from the
    cache without any call, and a request at that time refreshes. *)
Definition exampleEmptyStore : Store :=
  mkStore (mkCache (<["token" := mkUserInfo "user" "uid-1"]> ∅) ∅ exampleShared) ∅.

Example GetUserData_refresh_then_reuse :
  match GetUserData exampleEnv exampleEmptyStore "token" None (mkWorld 5000 []) with
  | Returns (s1, l1, err1) w1 =>
      err1 = None /\
      csrUpdatedAt <$> heap s1 !! l1 = Some 5000 /\
      nsrUpdatedAt <$> heap s1 !! l1 = Some 5000 /\
      trace w1 = [NewClientset; ListNamespaces; NewImpersonationClientset "user" "uid-1";
                  CreateRulesReview 7%nat "cluster-a"; CreateAccessReview 7%nat "" "nodes"] /\
      GetUserData exampleEnv s1 "token" None (mkWorld (5000 + 60000 * Millisecond - 1) [])
        = Returns (s1, l1, None) (mkWorld (5000 + 60000 * Millisecond - 1) []) /\
      match GetUserData exampleEnv s1 "token" None (mkWorld (5000 + 60000 * Millisecond) []) with
      | Returns (_, l2, _) w2 =>
          l2 <> l1 /\
          trace w2 = [NewClientset; ListNamespaces; NewImpersonationClientset "user" "uid-1";
                      CreateRulesReview 7%nat "cluster-a"; CreateAccessReview 7%nat "" "nodes"]
      | Panics => False
      end
  | Panics => False
  end.
Proof. vm_compute. repeat split; try reflexivity. discriminate. Qed.

(** *** Where the cache loses data *)

(** A failure of the listing of the hub's namespaces: the typed client
    returns an empty list and an error. *)
Lemma getManagedClusters_listing_failure env user w err :
  clustersCached env (clock w) user = false ->
  newClientset env = None ->
  listNamespaces env = ([], Some err) ->
  getManagedClusters env user w
    = Returns (listedClusters env w user, (∅, None)) (afterListing env w) /\
  managedClusters (listedClusters env w user) = ∅ /\
  clustersErr (listedClusters env w user) = None.
Proof.
  intros Hmiss Hclient Hlist. rewrite (getManagedClusters_miss _ _ _ Hmiss), Hclient.
  unfold listedClusters. rewrite Hlist. split; [reflexivity|]. split; reflexivity.
Qed.

(** An environment in which listing the namespaces of the hub fails. *)
Definition listingFails : Env :=
  mkEnv 60000 None ([], Some "connection refused")
        (fun _ _ => Ok 7%nat)
        (fun _ _ => ([mkResourceRule ["list"] ["apps"] ["deployments"]], None))
        (fun _ _ _ => (true, None))
        (fun _ => 0%N).

(** C7, on the code.  The user has the managed cluster [cluster-a] cached,
    past its time to live, and the listing fails.  [getManagedClusters]
    returns without error, but the user's managed clusters are now empty
    and [clustersErr] is nil: the map was reset before the call and the
    error of the call is dropped. *)
Example getManagedClusters_drops_map_and_error :
  let user := exampleUser 0 0 0 in
  let w := mkWorld (100000 * Millisecond) [] in
  managedClusters user !! "cluster-a" = Some "managedCluster" /\
  listNamespaces listingFails = ([], Some "connection refused") /\
  match getManagedClusters listingFails user w with
  | Returns (user', (clusters, err)) w' =>
      managedClusters user' = ∅ /\ clusters = ∅ /\
      clustersErr user' = None /\ err = None /\
      clustersUpdatedAt user' = 100000 * Millisecond /\
      trace w' = [NewClientset; ListNamespaces]
  | Panics => False
  end.
Proof. vm_compute. repeat split; reflexivity. Qed.

(** An environment in which no impersonation clientset can be made. *)
Definition impersonationFails : Env :=
  mkEnv 60000 None
        ([mkNamespace "cluster-a" (<["managedCluster" := "true"]> ∅)], None)
        (fun _ _ => Err "no impersonation")
        (fun _ _ => ([], None))
        (fun _ _ _ => (false, None))
        (fun _ => 0%N).

(** C6, on the code.  The cached snapshot of the user has cluster-scoped
    resources that are within their time to live, namespaced resources
    that are past it, and an impersonation client.  [GetUserData] does not
    update that snapshot: it points the user to a new, empty [userData],
    and when the refresh of the namespaced resources then fails, the
    snapshot the cache holds has no cluster-scoped resources, no
    namespaced resources and no client.  The old object is unchanged, but
    the cache does not point to it any more. *)
Example GetUserData_expired_discards_snapshot :
  let old := exampleUser (50000 * Millisecond) (50000 * Millisecond) (10000 * Millisecond) in
  let s := exampleStore old in
  let w := mkWorld (100000 * Millisecond) [] in
  Before (clock w) (Add (csrUpdatedAt old) (ttl impersonationFails)) = true /\
  Before (clock w) (Add (nsrUpdatedAt old) (ttl impersonationFails)) = false /\
  csResources old = [mkResource "" "nodes"] /\
  authzClient old = Some 7%nat /\
  match GetUserData impersonationFails s "token" None w with
  | Returns (s', l, err) w' =>
      users (cache s) !! "uid-1" = Some 0%nat /\
      users (cache s') !! "uid-1" = Some 1%nat /\
      l = 1%nat /\
      heap s' !! 0%nat = Some old /\
      csResources <$> heap s' !! 1%nat = Some [] /\
      nsResources <$> heap s' !! 1%nat = Some ∅ /\
      authzClient <$> heap s' !! 1%nat = Some None /\
      err = Some "no impersonation" /\
      trace w' = [NewClientset; ListNamespaces; NewImpersonationClientset "user" "uid-1"]
  | Panics => False
  end.
Proof. vm_compute. repeat split; reflexivity. Qed.

(** *** The helpers of the refresh *)

Lemma count_occ_intersection (a1 a2 : list string) (x : string) :
  count_occ string_dec (fst (intersection a1 a2)) x
  = if in_dec string_dec x a2 then count_occ string_dec a1 x else 0%nat.
Proof.
  unfold intersection. cbn [fst]. induction a1 as [|y a1 IH].
  - destruct (in_dec string_dec x a2); reflexivity.
  - cbn [List.filter]. destruct (existsb (String.eqb y) a2) eqn:Hy.
    + cbn [count_occ]. rewrite IH.
      destruct (string_dec y x) as [->|Hne]; [|reflexivity].
      destruct (in_dec string_dec x a2) as [Hin|Hnin]; [reflexivity|].
      exfalso. apply Hnin. apply existsb_exists in Hy as (z & Hz & Heq).
      apply String.eqb_eq in Heq. subst z. exact Hz.
    + rewrite IH. cbn [count_occ].
      destruct (string_dec y x) as [->|Hne]; [|reflexivity].
      destruct (in_dec string_dec x a2) as [Hin|Hnin]; [|reflexivity].
      exfalso. apply not_true_iff_false in Hy. apply Hy, existsb_exists.
      exists x. split; [exact Hin|apply String.eqb_refl].
Qed.

(** X10.  [intersection] returns, without error, the elements of its
    first argument that occur in the second, in the order and as often as
    the first argument has them: the result is a subsequence of the first
    argument in which an element of the second argument occurs as many
    times as in the first, and no other element occurs. *)
Theorem intersection_spec (a1 a2 : list string) :
  snd (intersection a1 a2) = None /\
  fst (intersection a1 a2) `sublist_of` a1 /\
  (forall x, In x (fst (intersection a1 a2)) <-> In x a1 /\ In x a2) /\
  forall x,
    count_occ string_dec (fst (intersection a1 a2)) x
    = if in_dec string_dec x a2 then count_occ string_dec a1 x else 0%nat.
Proof.
  split; [reflexivity|]. split; [|split; [intros x; apply in_intersection|]].
  - unfold intersection. cbn [fst]. induction a1 as [|x a1 IH]; [constructor|].
    cbn [List.filter]. destruct (existsb (String.eqb x) a2).
    + apply sublist_skip, IH.
    + apply sublist_cons, IH.
  - intros x. apply count_occ_intersection.
Qed.

(** X11.  A rule of a rules review gives the resources [api]/[res] with
    [api] one of its API groups and [res] one of its resources, and gives
    them only when "list" or "*" is one of its verbs. *)
Theorem listedResources_spec (rules : ResourceRule) (api res : string) :
  In (mkResource api res) (listedResources rules) <->
  (In "list"%string (Verbs rules) \/ In "*"%string (Verbs rules)) /\
  In res (Resources rules) /\ In api (APIGroups rules).
Proof.
  unfold listedResources. rewrite in_flat_map. split.
  - intros (verb & Hverb & Hin).
    destruct (String.eqb verb "list" || String.eqb verb "*") eqn:Hv; [|destruct Hin].
    apply in_flat_map in Hin as (res' & Hres & Hin).
    apply in_map_iff in Hin as (api' & [= -> ->] & Hapi).
    split; [|split; assumption].
    apply orb_prop in Hv as [Hv|Hv]; apply String.eqb_eq in Hv; subst verb; auto.
  - intros (Hverb & Hres & Hapi).
    assert (Hexp : In (mkResource api res)
                     (flat_map (fun res0 => List.map (fun api0 => mkResource api0 res0)
                                                     (APIGroups rules)) (Resources rules))).
    { apply in_flat_map. exists res. split; [exact Hres|].
      apply in_map_iff. exists api. split; [reflexivity|exact Hapi]. }
    destruct Hverb as [Hverb|Hverb].
    + exists "list"%string. split; [exact Hverb|exact Hexp].
    + exists "*"%string. split; [exact Hverb|exact Hexp].
Qed.

(** The access review lets the user list the resource: the review
    succeeded and allowed it. *)
Definition allowedBy (env : Env) (client : AuthzClient) (res : resource) : bool :=
  match createAccessReview env client (apigroup res) (kind res) with
  | (allowed, None) => allowed
  | (_, Some _) => false
  end.

Definition accessReviews (client : AuthzClient) (resources : list resource) : list Event :=
  List.map (fun res => CreateAccessReview client (apigroup res) (kind res)) resources.

Definition reviewTime (env : Env) (client : AuthzClient) (resources : list resource) : Z :=
  fold_right (fun ev t => Z.of_N (elapsed env ev) + t) 0 (accessReviews client resources).

Lemma reviewResources_spec env client resources :
  forall user w,
    reviewResources env client user resources w
    = Returns (set_csResources (csResources user ++ List.filter (allowedBy env client) resources)
                               user)
              (mkWorld (clock w + reviewTime env client resources)
                       (trace w ++ accessReviews client resources)).
Proof.
  induction resources as [|[g k] rest IH]; intros user w.
  - cbn. unfold ret. rewrite !List.app_nil_r, Z.add_0_r. destruct user, w. reflexivity.
  - cbn [reviewResources]. unfold bind at 1.
    unfold userAuthorizedListCSResource, bind, call. cbn [apigroup kind].
    unfold reviewTime. cbn [List.filter accessReviews List.map fold_right apigroup kind].
    fold (accessReviews client rest). fold (reviewTime env client rest).
    assert (Hal : allowedBy env client (mkResource g k)
                  = match createAccessReview env client g k with
                    | (allowed, None) => allowed
                    | (_, Some _) => false
                    end) by reflexivity.
    destruct (createAccessReview env client g k) as [allowed [err|]]; cbn [ret];
      rewrite Hal.
    + rewrite IH. cbn [clock trace]. rewrite <- List.app_assoc, Z.add_assoc. reflexivity.
    + destruct allowed; rewrite IH; cbn [clock trace csResources set_csResources];
        rewrite <- ?List.app_assoc, Z.add_assoc; reflexivity.
Qed.

(** X12.  With shared cluster-scoped resources and an impersonation
    client at hand, [getClusterScopedResources] reviews every shared
    resource once, in order, and replaces the user's list by the shared
    resources whose review succeeded and allowed them: a review that
    fails counts as a denial.  The update time is the clock after the
    last review and no error is returned. *)
Theorem getClusterScopedResources_reviews env (c : Cache) (user : userData)
    (token : string) (client : AuthzClient) (w : World) :
  shared_csResources (shared c) <> [] ->
  authzClient user = Some client ->
  exists user',
    getClusterScopedResources env c user token w
      = Returns (user', None)
                (mkWorld (clock w + reviewTime env client (shared_csResources (shared c)))
                         (trace w ++ accessReviews client (shared_csResources (shared c)))) /\
    csResources user' = List.filter (allowedBy env client) (shared_csResources (shared c)) /\
    csrUpdatedAt user' = clock w + reviewTime env client (shared_csResources (shared c)) /\
    csrErr user' = None /\
    nsResources user' = nsResources user /\
    managedClusters user' = managedClusters user.
Proof.
  intros Hshared Hclient. unfold getClusterScopedResources.
  destruct (shared_csResources (shared c)) as [|res rest] eqn:Hres; [destruct Hshared; reflexivity|].
  cbn [length Nat.eqb]. unfold bind at 1.
  unfold getImpersonationClientSet. cbn [authzClient set_csrErr]. rewrite Hclient.
  cbn [ret fst snd]. unfold bind at 1. rewrite reviewResources_spec.
  unfold bind, timeNow, ret. cbn [clock].
  eexists. split; [reflexivity|]. repeat split; reflexivity.
Qed.

(** When the shared cache has no cluster-scoped resource,
    [getClusterScopedResources] makes no call and only clears [csrErr]:
    the user's cluster-scoped resources and their update time stay as
    they are. *)
Theorem getClusterScopedResources_no_shared env (c : Cache) (user : userData)
    (token : string) (w : World) :
  shared_csResources (shared c) = [] ->
  getClusterScopedResources env c user token w = Returns (set_csrErr None user, None) w.
Proof.
  intros Hshared. unfold getClusterScopedResources. rewrite Hshared. reflexivity.
Qed.

(** X13.  When the impersonation clientset cannot be made,
    [getClusterScopedResources] reviews nothing: it records the error in
    [csrErr], returns it, and keeps the user's cluster-scoped resources
    and their update time. *)
Theorem getClusterScopedResources_no_client env (c : Cache) (user : userData)
    (token : string) (info : UserInfo) (err : error) (w : World) :
  shared_csResources (shared c) <> [] ->
  authzClient user = None ->
  tokenReviews c !! token = Some info ->
  newImpersonationClientset env (Username info) (UID info) = Err err ->
  getClusterScopedResources env c user token w
    = Returns (set_csrErr (Some err) user, Some err)
              (mkWorld (clock w + Z.of_N (elapsed env
                          (NewImpersonationClientset (Username info) (UID info))))
                       (trace w ++ [NewImpersonationClientset (Username info) (UID info)])).
Proof.
  intros Hshared Hclient Htoken Herr. unfold getClusterScopedResources.
  destruct (shared_csResources (shared c)) as [|res rest]; [destruct Hshared; reflexivity|].
  cbn [length Nat.eqb]. unfold bind at 1.
  unfold getImpersonationClientSet. cbn [authzClient set_csrErr]. rewrite Hclient, Htoken.
  unfold bind, call. rewrite Herr. cbn [ret fst snd]. destruct user. reflexivity.
Qed.

(** X14.  Once [getImpersonationClientSet] has returned a client, every
    later call for that user returns the same client, makes no call and
    changes nothing. *)
Theorem getImpersonationClientSet_reuses env (c : Cache) (user user' : userData)
    (token : string) (client : AuthzClient) (w w' : World) :
  getImpersonationClientSet env c user token w = Returns (user', Ok client) w' ->
  authzClient user' = Some client /\
  forall c2 token2 w2,
    getImpersonationClientSet env c2 user' token2 w2 = Returns (user', Ok client) w2.
Proof.
  intros Hrun.
  assert (Hclient : authzClient user' = Some client).
  { unfold getImpersonationClientSet in Hrun.
    destruct (authzClient user) as [client0|] eqn:Hc.
    - injection Hrun as <- <- _. exact Hc.
    - destruct (tokenReviews c !! token) as [info|]; [|discriminate].
      unfold bind, call in Hrun.
      destruct (newImpersonationClientset env (Username info) (UID info)) as [cl|e];
        [|discriminate].
      injection Hrun as <- <- _. reflexivity. }
  split; [exact Hclient|]. intros c2 token2 w2.
  unfold getImpersonationClientSet. rewrite Hclient. reflexivity.
Qed.

(** *** The managed clusters that are listed *)

(** The namespace has a label whose key contains "managedCluster". *)
Definition isManagedCluster (namespace : Namespace) : Prop :=
  exists key, is_Some (Labels namespace !! key) /\ Contains key "managedCluster" = true.

Lemma managedClusterLabel_Some (labels : gmap string string) (l : string) :
  managedClusterLabel labels = Some l ->
  is_Some (labels !! l) /\ Contains l "managedCluster" = true.
Proof.
  unfold managedClusterLabel. intros Hfind. apply find_some in Hfind as [Hin Hc].
  split; [|exact Hc]. apply in_map_iff in Hin as [[key v] [Heq Hin]]. cbn in Heq. subst key.
  unfold range in Hin. apply list_elem_of_In, elem_of_map_to_list in Hin. eauto.
Qed.

Lemma managedClusterLabel_is_Some (namespace : Namespace) :
  is_Some (managedClusterLabel (Labels namespace)) <-> isManagedCluster namespace.
Proof.
  split.
  - intros [l Hl]. exists l. apply managedClusterLabel_Some, Hl.
  - intros (key & [v Hv] & Hc).
    destruct (managedClusterLabel (Labels namespace)) as [l|] eqn:Hfind; [eauto|].
    exfalso. unfold managedClusterLabel in Hfind.
    assert (Hin : In key (List.map fst (range (Labels namespace)))).
    { apply in_map_iff. exists (key, v). split; [reflexivity|].
      apply list_elem_of_In, elem_of_map_to_list, Hv. }
    pose proof (find_none _ _ Hfind key Hin) as Hnone. cbn in Hnone. congruence.
Qed.

Lemma managedClustersOf_spec (items : list Namespace) :
  forall m : gmap string string,
    (forall ns, is_Some (managedClustersOf m items !! ns) <->
       is_Some (m !! ns) \/
       exists namespace, In namespace items /\ Name namespace = ns /\
                         isManagedCluster namespace) /\
    ((forall ns v, m !! ns = Some v -> Contains v "managedCluster" = true) ->
     forall ns v, managedClustersOf m items !! ns = Some v ->
       Contains v "managedCluster" = true).
Proof.
  induction items as [|namespace rest IH]; intros m.
  - split.
    + intros ns. cbn. split; [auto|]. intros [Hm|(? & [] & _)]. exact Hm.
    + intros Hm ns v. apply Hm.
  - cbn [managedClustersOf]. cbv zeta.
    pose proof (managedClusterLabel_is_Some namespace) as Hlabel.
    destruct (managedClusterLabel (Labels namespace)) as [l|] eqn:Hfind.
    + destruct (IH (<[Name namespace := l]> m)) as [IHkeys IHvals]. split.
      * intros ns. rewrite IHkeys. split.
        -- intros [Hins|(n & Hin & Hname & Hmc)].
           ++ destruct (decide (Name namespace = ns)) as [Heq|Hne].
              ** right. exists namespace. split; [left; reflexivity|].
                 split; [exact Heq|]. apply Hlabel. eauto.
              ** rewrite lookup_insert_ne in Hins by exact Hne. left. exact Hins.
           ++ right. exists n. split; [right; exact Hin|]. split; assumption.
        -- intros [Hm|(n & [<-|Hin] & Hname & Hmc)].
           ++ left. destruct (decide (Name namespace = ns)) as [<-|Hne].
              ** rewrite lookup_insert_eq. eauto.
              ** rewrite lookup_insert_ne by exact Hne. exact Hm.
           ++ left. rewrite <- Hname, lookup_insert_eq. eauto.
           ++ right. exists n. split; [exact Hin|]. split; assumption.
      * intros Hm. apply IHvals. intros ns v.
        destruct (decide (Name namespace = ns)) as [<-|Hne].
        -- rewrite lookup_insert_eq. intros [= <-].
           apply (managedClusterLabel_Some _ _ Hfind).
        -- rewrite lookup_insert_ne by exact Hne. apply Hm.
    + destruct (IH m) as [IHkeys IHvals]. split; [|exact IHvals].
      intros ns. rewrite IHkeys. split.
      * intros [Hm|(n & Hin & Hname & Hmc)]; [left; exact Hm|].
        right. exists n. split; [right; exact Hin|]. split; assumption.
      * intros [Hm|(n & [<-|Hin] & Hname & Hmc)]; [left; exact Hm| |].
        -- apply Hlabel in Hmc. destruct Hmc as [? [=]].
        -- right. exists n. split; [exact Hin|]. split; assumption.
Qed.

Lemma managedClustersOf_values (items : list Namespace) :
  forall (m : gmap string string) ns v,
    managedClustersOf m items !! ns = Some v ->
    m !! ns = Some v \/
    exists namespace, In namespace items /\ Name namespace = ns /\
                      is_Some (Labels namespace !! v) /\
                      Contains v "managedCluster" = true.
Proof.
  induction items as [|namespace rest IH]; intros m ns v Hv; [left; exact Hv|].
  cbn [managedClustersOf] in Hv. cbv zeta in Hv.
  assert (Hrest : forall n, In n rest -> In n (namespace :: rest)) by (intros n Hn; right; exact Hn).
  destruct (managedClusterLabel (Labels namespace)) as [l|] eqn:Hfind.
  - apply IH in Hv as [Hm|(n & Hin & Hname & Hkey & Hc)].
    + destruct (decide (Name namespace = ns)) as [Heq|Hne].
      * rewrite <- Heq, lookup_insert_eq in Hm. injection Hm as <-.
        right. exists namespace. split; [left; reflexivity|]. split; [exact Heq|].
        apply (managedClusterLabel_Some _ _ Hfind).
      * rewrite lookup_insert_ne in Hm by exact Hne. left. exact Hm.
    + right. exists n. split; [apply Hrest, Hin|]. repeat split; assumption.
  - apply IH in Hv as [Hm|(n & Hin & Hname & Hkey & Hc)]; [left; exact Hm|].
    right. exists n. split; [apply Hrest, Hin|]. repeat split; assumption.
Qed.

(** X15.  When the managed clusters are not served from the cache and
    the clientset can be built, [getManagedClusters] lists the namespaces
    once and makes the user's managed clusters exactly the names of the
    listed namespaces that have a label whose key contains
    "managedCluster"; the value kept for a name is the key of such a label
    of a listed namespace of that name.  What was cached before is
    gone. *)
Theorem getManagedClusters_lists env (user : userData) (w : World) :
  clustersCached env (clock w) user = false ->
  newClientset env = None ->
  exists user',
    getManagedClusters env user w
      = Returns (user', (managedClusters user', None)) (afterListing env w) /\
    (forall ns, is_Some (managedClusters user' !! ns) <->
       exists namespace, In namespace (fst (listNamespaces env)) /\
                         Name namespace = ns /\ isManagedCluster namespace) /\
    (forall ns v, managedClusters user' !! ns = Some v ->
       Contains v "managedCluster" = true /\
       exists namespace, In namespace (fst (listNamespaces env)) /\
                         Name namespace = ns /\ is_Some (Labels namespace !! v)) /\
    clustersUpdatedAt user' = clock (afterListing env w) /\
    clustersErr user' = None.
Proof.
  intros Hmiss Hclient. exists (listedClusters env w user).
  rewrite (getManagedClusters_miss _ _ _ Hmiss), Hclient. split; [reflexivity|].
  destruct (managedClustersOf_spec (fst (listNamespaces env)) ∅) as [Hkeys _].
  cbn [listedClusters managedClusters clustersUpdatedAt clustersErr set_clustersErr
       set_clustersUpdatedAt set_managedClusters].
  split; [|split; [|split; reflexivity]].
  - intros ns. rewrite Hkeys. split.
    + intros [Hempty|Hex]; [|exact Hex]. rewrite lookup_empty in Hempty.
      destruct Hempty as [? [=]].
    + intros Hex. right. exact Hex.
  - intros ns v Hv.
    apply managedClustersOf_values in Hv as [Hempty|(n & Hin & Hname & Hkey & Hc)].
    + rewrite lookup_empty in Hempty. discriminate Hempty.
    + split; [exact Hc|]. exists n. repeat split; assumption.
Qed.

(** *** What GetUserData leaves alone *)

Lemma GetUserData_cases env s token authz w s' l err w' :
  GetUserData env s token authz w = Returns (s', l, err) w' ->
  exists info,
    tokenReviews (cache s) !! token = Some info /\
    ((s' = s /\ w' = w /\ err = None /\
      users (cache s) !! UID info = Some l /\ is_Some (heap s !! l)) \/
     (exists r,
        refreshUserData env (newCache s (UID info)) (newUser authz) token w = Returns r w' /\
        s' = mkStore (newCache s (UID info)) (<[newLoc (heap s) := fst r]> (heap s)) /\
        l = newLoc (heap s) /\ err = snd r)).
Proof.
  unfold GetUserData. destruct (tokenReviews (cache s) !! token) as [info|]; [|discriminate].
  cbv zeta. intros Hrun. exists info. split; [reflexivity|].
  assert (Hrefresh :
    (r <- refreshUserData env (newCache s (UID info)) (newUser authz) token ;;
     ret (mkStore (newCache s (UID info)) (<[newLoc (heap s) := fst r]> (heap s)),
          newLoc (heap s), snd r)) w = Returns (s', l, err) w' ->
    exists r,
      refreshUserData env (newCache s (UID info)) (newUser authz) token w = Returns r w' /\
      s' = mkStore (newCache s (UID info)) (<[newLoc (heap s) := fst r]> (heap s)) /\
      l = newLoc (heap s) /\ err = snd r).
  { intros Hr. unfold bind in Hr.
    destruct (refreshUserData env (newCache s (UID info)) (newUser authz) token w)
      as [r wr|]; [|discriminate].
    injection Hr as <- <- <- <-. exists r. repeat split; reflexivity. }
  destruct (users (cache s) !! UID info) as [l0|] eqn:Hl0.
  - destruct (heap s !! l0) as [u|] eqn:Hu.
    + unfold bind at 1 in Hrun. cbv beta iota delta [userCacheValid bind timeNow ret] in Hrun.
      destruct (userCacheValidAt env (clock w) u).
      * injection Hrun as <- <- <- <-. left. repeat split; eauto.
      * right. apply Hrefresh, Hrun.
    + right. apply Hrefresh, Hrun.
  - right. apply Hrefresh, Hrun.
Qed.

(** X16.  A call of [GetUserData] for one user leaves alone the token
    reviews, the shared cache, the entries of all other users and every
    [userData] object that existed before the call (the user's own old
    one included).  The pointer it returns is the one the cache then
    holds for the user, and it points to an object. *)
Theorem GetUserData_frame env s token authz w s' l err w' :
  GetUserData env s token authz w = Returns (s', l, err) w' ->
  exists info,
    tokenReviews (cache s) !! token = Some info /\
    tokenReviews (cache s') = tokenReviews (cache s) /\
    shared (cache s') = shared (cache s) /\
    (forall uid, uid <> UID info -> users (cache s') !! uid = users (cache s) !! uid) /\
    (forall l0, is_Some (heap s !! l0) -> heap s' !! l0 = heap s !! l0) /\
    users (cache s') !! UID info = Some l /\
    is_Some (heap s' !! l).
Proof.
  intros Hrun. apply GetUserData_cases in Hrun as (info & Htoken & Hcases).
  exists info. split; [exact Htoken|].
  destruct Hcases as [(-> & _ & _ & Hl & Hsome)|(r & _ & -> & -> & _)].
  - repeat split; auto.
  - cbn [cache heap newCache tokenReviews shared users].
    split; [reflexivity|]. split; [reflexivity|]. split; [|split; [|split]].
    + intros uid Hne. apply lookup_insert_ne. congruence.
    + intros l0 [u Hu]. apply lookup_insert_ne. apply (newLoc_fresh _ _ _ Hu).
    + apply lookup_insert_eq.
    + rewrite lookup_insert_eq. eauto.
Qed.

(** *** What the namespaced resources hold *)

(** Every list of the map is non-empty and holds only resources that a
    rule of the rules review of its namespace lets the user list. *)
Definition listedOnly (env : Env) (client : AuthzClient)
    (m : gmap string (list resource)) : Prop :=
  forall ns rs, m !! ns = Some rs ->
    rs <> [] /\
    forall x, In x rs ->
      exists rules, In rules (fst (createRulesReview env client ns)) /\
                    In x (listedResources rules).

Lemma listedOnly_appendAll env client m ns :
  listedOnly env client m ->
  listedOnly env client
    (appendAll m ns (flat_map listedResources (fst (createRulesReview env client ns)))).
Proof.
  intros Hm. unfold appendAll.
  destruct (flat_map listedResources (fst (createRulesReview env client ns)))
    as [|x0 new] eqn:Hnew; [exact Hm|].
  intros ns' rs. destruct (decide (ns = ns')) as [<-|Hne].
  - rewrite lookup_insert_eq. intros [= <-]. split.
    + destruct (default [] (m !! ns)); discriminate.
    + intros x Hx. apply in_app_or in Hx as [Hold|Hx].
      * destruct (m !! ns) as [old|] eqn:Hlook; [|destruct Hold].
        apply (proj2 (Hm ns old Hlook)), Hold.
      * rewrite <- Hnew in Hx. apply in_flat_map in Hx. exact Hx.
  - rewrite lookup_insert_ne by exact Hne. apply Hm.
Qed.

Lemma reviewNamespaces_listedOnly env client allNamespaces :
  forall user w user' w',
    reviewNamespaces env client user allNamespaces w = Returns user' w' ->
    listedOnly env client (nsResources user) ->
    listedOnly env client (nsResources user') /\ authzClient user' = authzClient user.
Proof.
  induction allNamespaces as [|ns rest IH]; intros user w user' w' Hrun Hm.
  - injection Hrun as <- _. split; [exact Hm|reflexivity].
  - cbn [reviewNamespaces] in Hrun. unfold bind at 1 in Hrun. cbn [call] in Hrun.
    apply IH in Hrun; [exact Hrun|].
    cbn [nsResources set_nsResources]. apply listedOnly_appendAll, Hm.
Qed.

Lemma getImpersonationClientSet_client env c user token w r w' client :
  getImpersonationClientSet env c user token w = Returns r w' ->
  snd r = Ok client ->
  authzClient (fst r) = Some client.
Proof.
  unfold getImpersonationClientSet. destruct (authzClient user) as [client0|] eqn:Hc.
  - intros [= <- _] [= <-]. exact Hc.
  - destruct (tokenReviews c !! token) as [info|]; [|discriminate].
    unfold bind, call.
    destruct (newImpersonationClientset env (Username info) (UID info)) as [cl|e];
      intros [= <- _]; [intros [= <-]; reflexivity|discriminate].
Qed.

(** X17.  A run of [getNamespacedResources] that rebuilds the map of
    namespaced resources leaves under every namespace a non-empty list,
    each resource of which comes from a rule that the rules review of
    that namespace returned to the user's impersonation client, and so
    from a rule with the verb "list" or "*". *)
Theorem getNamespacedResources_listed_only env c user token w r w' :
  getNamespacedResources env c user token w = Returns r w' ->
  nsResources (fst r) = nsResources user \/
  exists client,
    authzClient (fst r) = Some client /\
    listedOnly env client (nsResources (fst r)).
Proof.
  intros Hrun. unfold getNamespacedResources in Hrun. unfold bind at 1 in Hrun.
  destruct (getManagedClusters env user w) as [rm wm|] eqn:Hmc; [|discriminate].
  apply getManagedClusters_frame in Hmc as [_ Hns]. rewrite <- Hns. clear Hns.
  revert Hrun. generalize (fst rm) (fst (snd rm)). clear rm. intros user1 clusters.
  unfold getNamespacedResources_locked. unfold bind at 1. cbn [timeNow].
  destruct (nsResourcesCached env (clock wm) user1).
  { intros [= <- _]. left. reflexivity. }
  destruct (Nat.eqb (length (namespaces (shared c))) 0).
  { intros [= <- _]. left. reflexivity. }
  cbv zeta. unfold bind at 1.
  destruct (getImpersonationClientSet env c (set_csrErr None user1) token wm)
    as [ri wi|] eqn:Himp; [|discriminate].
  pose proof (getImpersonationClientSet_frame _ _ _ _ _ _ _ Himp) as [_ Hns].
  cbn [nsResources set_csrErr] in Hns.
  destruct (snd ri) as [client|err] eqn:Hsnd.
  2:{ intros [= <- _]. left. exact Hns. }
  pose proof (getImpersonationClientSet_client _ _ _ _ _ _ _ _ Himp Hsnd) as Hclient.
  unfold bind at 1.
  destruct (reviewNamespaces env client (set_nsResources ∅ (fst ri))
              (fst (intersection (namespaces (shared c)) (List.map fst (range clusters)))) wi)
    as [user' wr|] eqn:Hrev; [|discriminate].
  apply reviewNamespaces_listedOnly in Hrev as [Hlisted Hsame].
  2:{ intros ns rs. cbn [nsResources set_nsResources]. rewrite lookup_empty. discriminate. }
  cbn [authzClient set_nsResources] in Hsame.
  unfold bind, timeNow, ret. intros [= <- _]. right. exists client.
  cbn [fst authzClient nsResources set_nsrUpdatedAt]. split; [congruence|exact Hlisted].
Qed.

Lemma GetUserData_uncached env s token authz w info :
  tokenReviews (cache s) !! token = Some info ->
  users (cache s) !! UID info = None ->
  GetUserData env s token authz w =
  match refreshUserData env (newCache s (UID info)) (newUser authz) token w with
  | Returns r w' =>
      Returns (mkStore (newCache s (UID info)) (<[newLoc (heap s) := fst r]> (heap s)),
               newLoc (heap s), snd r) w'
  | Panics => Panics
  end.
Proof.
  intros Htoken Huser. unfold GetUserData. rewrite Htoken. cbv zeta. rewrite Huser.
  reflexivity.
Qed.

(** X18.  For a user the cache does not know, while the shared cache has
    no namespace and an error for them, [GetUserData] lists the managed
    clusters and then stops: it makes no authorization call, returns the
    shared cache's error, and the snapshot it stores has no resources and
    zero update times for them. *)
Theorem GetUserData_no_shared_namespaces env s token authz w info err :
  tokenReviews (cache s) !! token = Some info ->
  users (cache s) !! UID info = None ->
  newClientset env = None ->
  namespaces (shared (cache s)) = [] ->
  nsErr (shared (cache s)) = Some err ->
  exists s' user',
    GetUserData env s token authz w
      = Returns (s', newLoc (heap s), Some err) (afterListing env w) /\
    heap s' !! newLoc (heap s) = Some user' /\
    users (cache s') !! UID info = Some (newLoc (heap s)) /\
    csResources user' = [] /\ nsResources user' = ∅ /\
    csrUpdatedAt user' = zeroTime /\ nsrUpdatedAt user' = zeroTime /\
    authzClient user' = authz.
Proof.
  intros Htoken Huser Hclient Hns Herr.
  rewrite (GetUserData_uncached env s token authz w info Htoken Huser).
  unfold refreshUserData, getNamespacedResources. unfold bind at 1 2.
  rewrite (getManagedClusters_miss _ _ _ (newUser_clusters_miss env (clock w) authz)), Hclient.
  unfold getNamespacedResources_locked. unfold bind at 1. cbn [timeNow fst snd].
  assert (Hcached : nsResourcesCached env (clock (afterListing env w))
                      (listedClusters env w (newUser authz)) = false)
    by (destruct authz; reflexivity).
  rewrite Hcached. cbn [shared newCache]. rewrite Hns, Herr. cbn [length Nat.eqb ret fst snd].
  eexists _, _. split; [reflexivity|]. cbn [heap cache users newCache].
  split; [apply lookup_insert_eq|]. split; [apply lookup_insert_eq|].
  destruct authz; repeat split; reflexivity.
Qed.

(** *** The update times a refresh leaves *)

(** The update time is the one from before the run, or a reading of the
    clock during the run. *)
Definition stampKept (w w' : World) (old new : Time) : Prop :=
  new = old \/ clock w <= new <= clock w'.

Lemma call_time env ev w a w' :
  call env ev w = Returns a w' -> clock w <= clock w'.
Proof. intros [= _ <-]. cbn [clock]. lia. Qed.

Lemma getManagedClusters_time env user w r w' :
  getManagedClusters env user w = Returns r w' ->
  clock w <= clock w' /\
  csrUpdatedAt (fst r) = csrUpdatedAt user /\
  nsrUpdatedAt (fst r) = nsrUpdatedAt user /\
  (clustersUpdatedAt (fst r) = clustersUpdatedAt user \/ clustersUpdatedAt (fst r) = clock w').
Proof.
  destruct (clustersCached env (clock w) user) eqn:Hc.
  - rewrite (getManagedClusters_hit _ _ _ Hc). intros [= <- <-].
    repeat split; [lia|left; reflexivity].
  - rewrite (getManagedClusters_miss _ _ _ Hc). destruct (newClientset env); [discriminate|].
    intros [= <- <-]. cbn [afterListing clock]. repeat split; [lia|right; reflexivity].
Qed.

Lemma getImpersonationClientSet_time env c user token w r w' :
  getImpersonationClientSet env c user token w = Returns r w' ->
  clock w <= clock w' /\
  clustersUpdatedAt (fst r) = clustersUpdatedAt user /\
  csrUpdatedAt (fst r) = csrUpdatedAt user /\
  nsrUpdatedAt (fst r) = nsrUpdatedAt user.
Proof.
  unfold getImpersonationClientSet. destruct (authzClient user) as [client|].
  - intros [= <- <-]. repeat split; lia.
  - destruct (tokenReviews c !! token) as [info|]; [|discriminate].
    unfold bind, call.
    destruct (newImpersonationClientset env (Username info) (UID info));
      intros [= <- <-]; cbn [clock]; repeat split; lia.
Qed.

Lemma reviewNamespaces_time env client allNamespaces :
  forall user w user' w',
    reviewNamespaces env client user allNamespaces w = Returns user' w' ->
    clock w <= clock w' /\
    clustersUpdatedAt user' = clustersUpdatedAt user /\
    csrUpdatedAt user' = csrUpdatedAt user /\
    nsrUpdatedAt user' = nsrUpdatedAt user.
Proof.
  induction allNamespaces as [|ns rest IH]; intros user w user' w' Hrun.
  - injection Hrun as <- <-. repeat split; lia.
  - cbn [reviewNamespaces] in Hrun. unfold bind at 1 in Hrun. cbn [call] in Hrun.
    apply IH in Hrun as (Hclock & H1 & H2 & H3). cbn [clock] in Hclock.
    repeat split; [lia|assumption..].
Qed.

Lemma reviewTime_nonneg env client resources : 0 <= reviewTime env client resources.
Proof.
  unfold reviewTime. induction (accessReviews client resources) as [|ev evs IH]; cbn; lia.
Qed.

Lemma getNamespacedResources_locked_time env c user clusters token w r w' :
  getNamespacedResources_locked env c user clusters token w = Returns r w' ->
  clock w <= clock w' /\
  clustersUpdatedAt (fst r) = clustersUpdatedAt user /\
  csrUpdatedAt (fst r) = csrUpdatedAt user /\
  (nsrUpdatedAt (fst r) = nsrUpdatedAt user \/ nsrUpdatedAt (fst r) = clock w').
Proof.
  unfold getNamespacedResources_locked. unfold bind at 1. cbn [timeNow].
  destruct (nsResourcesCached env (clock w) user).
  { intros [= <- <-]. repeat split; [lia|left; reflexivity]. }
  destruct (Nat.eqb (length (namespaces (shared c))) 0).
  { intros [= <- <-]. repeat split; [lia|left; reflexivity]. }
  cbv zeta. unfold bind at 1.
  destruct (getImpersonationClientSet env c (set_csrErr None user) token w)
    as [ri wi|] eqn:Himp; [|discriminate].
  apply getImpersonationClientSet_time in Himp as (Hc1 & H1 & H2 & H3).
  cbn [clustersUpdatedAt csrUpdatedAt nsrUpdatedAt set_csrErr] in H1, H2, H3.
  destruct (snd ri) as [client|err].
  2:{ intros [= <- <-]. cbn [fst]. repeat split; [lia|assumption..|left; assumption]. }
  unfold bind at 1.
  destruct (reviewNamespaces env client (set_nsResources ∅ (fst ri))
              (fst (intersection (namespaces (shared c)) (List.map fst (range clusters)))) wi)
    as [user' wr|] eqn:Hrev; [|discriminate].
  apply reviewNamespaces_time in Hrev as (Hc2 & H1' & H2' & H3').
  cbn [clustersUpdatedAt csrUpdatedAt nsrUpdatedAt set_nsResources] in H1', H2', H3'.
  unfold bind, timeNow, ret. intros [= <- <-].
  cbn [fst clustersUpdatedAt csrUpdatedAt nsrUpdatedAt set_nsrUpdatedAt].
  repeat split; [lia|congruence|congruence|right; reflexivity].
Qed.

Lemma getClusterScopedResources_time env c user token w r w' :
  getClusterScopedResources env c user token w = Returns r w' ->
  clock w <= clock w' /\
  clustersUpdatedAt (fst r) = clustersUpdatedAt user /\
  nsrUpdatedAt (fst r) = nsrUpdatedAt user /\
  (csrUpdatedAt (fst r) = csrUpdatedAt user \/ csrUpdatedAt (fst r) = clock w').
Proof.
  unfold getClusterScopedResources.
  destruct (Nat.eqb (length (shared_csResources (shared c))) 0).
  { intros [= <- <-]. repeat split; [lia|left; reflexivity]. }
  unfold bind at 1.
  destruct (getImpersonationClientSet env c (set_csrErr None user) token w)
    as [ri wi|] eqn:Himp; [|discriminate].
  apply getImpersonationClientSet_time in Himp as (Hc1 & H1 & H2 & H3).
  cbn [clustersUpdatedAt csrUpdatedAt nsrUpdatedAt set_csrErr] in H1, H2, H3.
  destruct (snd ri) as [client|err].
  2:{ intros [= <- <-]. cbn [fst clustersUpdatedAt csrUpdatedAt nsrUpdatedAt set_csrErr].
      repeat split; [lia|assumption..|left; assumption]. }
  unfold bind at 1. rewrite reviewResources_spec.
  unfold bind, timeNow, ret. intros [= <- <-].
  cbn [fst clock clustersUpdatedAt csrUpdatedAt nsrUpdatedAt set_csrUpdatedAt set_csResources].
  pose proof (reviewTime_nonneg env client (shared_csResources (shared c))).
  repeat split; [lia|assumption..|right; reflexivity].
Qed.

(** X19.  A refresh does not move the clock back, and each of the three
    update times of the user it leaves is the one the user had before or
    a reading of the clock taken during the refresh: no update time lies
    after the clock at the end of the refresh. *)
Theorem refreshUserData_update_times env c user token w r w' :
  refreshUserData env c user token w = Returns r w' ->
  clock w <= clock w' /\
  stampKept w w' (clustersUpdatedAt user) (clustersUpdatedAt (fst r)) /\
  stampKept w w' (nsrUpdatedAt user) (nsrUpdatedAt (fst r)) /\
  stampKept w w' (csrUpdatedAt user) (csrUpdatedAt (fst r)).
Proof.
  unfold refreshUserData, getNamespacedResources. unfold bind at 1 2.
  destruct (getManagedClusters env user w) as [rm wm|] eqn:Hmc; [|discriminate].
  apply getManagedClusters_time in Hmc as (Hc1 & Hcsr1 & Hnsr1 & Hcl1).
  destruct (getNamespacedResources_locked env c (fst rm) (fst (snd rm)) token wm)
    as [rn wn|] eqn:Hns; [|discriminate].
  apply getNamespacedResources_locked_time in Hns as (Hc2 & Hcl2 & Hcsr2 & Hnsr2).
  assert (Hnamespaced :
            clock w <= clock wn /\
            stampKept w wn (clustersUpdatedAt user) (clustersUpdatedAt (fst rn)) /\
            stampKept w wn (nsrUpdatedAt user) (nsrUpdatedAt (fst rn)) /\
            csrUpdatedAt (fst rn) = csrUpdatedAt user).
  { unfold stampKept. split; [lia|]. split; [|split; [|congruence]].
    - destruct Hcl1 as [Hcl1|Hcl1]; [left; congruence|right; lia].
    - destruct Hnsr2 as [Hnsr2|Hnsr2]; [left; congruence|right; lia]. }
  destruct Hnamespaced as (Hcn & Hkcl & Hknsr & Hkcsr).
  destruct (snd rn) as [err|].
  - intros [= <- <-]. cbn [fst]. split; [exact Hcn|]. split; [exact Hkcl|].
    split; [exact Hknsr|]. left. exact Hkcsr.
  - intros Hcs. apply getClusterScopedResources_time in Hcs as (Hc3 & Hcl3 & Hnsr3 & Hcsr3).
    unfold stampKept in *. split; [lia|]. split; [|split].
    + destruct Hkcl as [Hk|Hk]; [left; congruence|right; lia].
    + destruct Hknsr as [Hk|Hk]; [left; congruence|right; lia].
    + destruct Hcsr3 as [Hk|Hk]; [left; congruence|right; lia].
Qed.

(** *** When GetUserData panics *)

Lemma safe_getManagedClusters env user :
  newClientset env = None -> safe (getManagedClusters env user).
Proof.
  intros Hclient w. destruct (clustersCached env (clock w) user) eqn:Hc.
  - rewrite (getManagedClusters_hit _ _ _ Hc). discriminate.
  - rewrite (getManagedClusters_miss _ _ _ Hc), Hclient. discriminate.
Qed.

Lemma safe_refreshUserData env c user token :
  is_Some (tokenReviews c !! token) ->
  newClientset env = None ->
  safe (refreshUserData env c user token).
Proof.
  intros Htoken Hclient. unfold refreshUserData, getNamespacedResources.
  apply safe_bind.
  - apply safe_bind; [apply safe_getManagedClusters, Hclient|].
    intros r. apply safe_getNamespacedResources_locked, Htoken.
  - intros r. destruct (snd r); [apply safe_ret|].
    apply safe_getClusterScopedResources, Htoken.
Qed.

(** X21.  [GetUserData] panics for a token that has no token review.
    For a token that has one it does not panic as long as the clientset
    of the hub can be built: failing reviews, a failing listing and a
    failing impersonation all come back as results. *)
Theorem GetUserData_panics_only env s token authz w :
  (tokenReviews (cache s) !! token = None ->
   GetUserData env s token authz w = Panics) /\
  (is_Some (tokenReviews (cache s) !! token) ->
   newClientset env = None ->
   GetUserData env s token authz w <> Panics).
Proof.
  split.
  - intros Hnone. unfold GetUserData. rewrite Hnone. reflexivity.
  - intros [info Htoken] Hclient.
    assert (Hsafe : forall w0,
              match refreshUserData env (newCache s (UID info)) (newUser authz) token w0 with
              | Returns r w' =>
                  Returns (mkStore (newCache s (UID info))
                                   (<[newLoc (heap s) := fst r]> (heap s)),
                           newLoc (heap s), snd r) w'
              | Panics => Panics
              end <> Panics).
    { intros w0 Hp.
      destruct (refreshUserData env (newCache s (UID info)) (newUser authz) token w0)
        as [r w'|] eqn:Hrun; [discriminate|].
      apply (safe_refreshUserData env (newCache s (UID info)) (newUser authz) token
               (ex_intro _ info Htoken) Hclient w0 Hrun). }
    destruct (users (cache s) !! UID info) as [l|] eqn:Hl.
    + destruct (heap s !! l) as [u|] eqn:Hu.
      * destruct (userCacheValidAt env (clock w) u) eqn:Hv.
        -- rewrite (GetUserData_valid env s token authz w info l u Htoken Hl Hu Hv).
           discriminate.
        -- rewrite (GetUserData_expired env s token authz w info l u Htoken Hl Hu Hv).
           apply Hsafe.
      * unfold GetUserData. rewrite Htoken. cbv zeta. rewrite Hl, Hu. apply Hsafe.
    + rewrite (GetUserData_uncached env s token authz w info Htoken Hl). apply Hsafe.
Qed.

(** *** Examples for the properties above *)

Lemma getClusterScopedResources_reviews_witness :
  let c := cache (exampleStore emptyUserData) in
  let w := mkWorld 5000 [] in
  shared_csResources (shared c) <> [] /\
  authzClient exampleRefreshed = Some 7%nat /\
  exists user',
    getClusterScopedResources exampleEnv c exampleRefreshed "token" w
      = Returns (user', None)
                (mkWorld (clock w + reviewTime exampleEnv 7%nat (shared_csResources (shared c)))
                         (trace w ++ accessReviews 7%nat (shared_csResources (shared c)))) /\
    csResources user'
      = List.filter (allowedBy exampleEnv 7%nat) (shared_csResources (shared c)) /\
    csrUpdatedAt user'
      = clock w + reviewTime exampleEnv 7%nat (shared_csResources (shared c)) /\
    csrErr user' = None /\
    nsResources user' = nsResources exampleRefreshed /\
    managedClusters user' = managedClusters exampleRefreshed.
Proof.
  cbv zeta.
  assert (Hshared : shared_csResources (shared (cache (exampleStore emptyUserData))) <> [])
    by discriminate.
  split; [exact Hshared|]. split; [reflexivity|].
  exact (getClusterScopedResources_reviews exampleEnv (cache (exampleStore emptyUserData))
           exampleRefreshed "token" 7%nat (mkWorld 5000 []) Hshared eq_refl).
Defined.

Lemma getClusterScopedResources_no_client_witness :
  let c := cache (exampleStore emptyUserData) in
  let info := mkUserInfo "user" "uid-1" in
  let w := mkWorld 5000 [] in
  shared_csResources (shared c) <> [] /\
  authzClient emptyUserData = None /\
  tokenReviews c !! "token" = Some info /\
  newImpersonationClientset impersonationFails (Username info) (UID info)
    = Err "no impersonation" /\
  getClusterScopedResources impersonationFails c emptyUserData "token" w
    = Returns (set_csrErr (Some "no impersonation") emptyUserData, Some "no impersonation")
              (mkWorld (clock w + Z.of_N (elapsed impersonationFails
                          (NewImpersonationClientset (Username info) (UID info))))
                       (trace w ++ [NewImpersonationClientset (Username info) (UID info)])).
Proof.
  cbv zeta.
  assert (Hshared : shared_csResources (shared (cache (exampleStore emptyUserData))) <> [])
    by discriminate.
  split; [exact Hshared|]. split; [reflexivity|]. split; [reflexivity|].
  split; [reflexivity|].
  exact (getClusterScopedResources_no_client impersonationFails
           (cache (exampleStore emptyUserData)) emptyUserData "token"
           (mkUserInfo "user" "uid-1") "no impersonation" (mkWorld 5000 [])
           Hshared eq_refl eq_refl eq_refl).
Defined.

Lemma getImpersonationClientSet_reuses_witness :
  let c := cache (exampleStore emptyUserData) in
  let user' := set_authzClient (Some 7%nat) emptyUserData in
  getImpersonationClientSet exampleEnv c emptyUserData "token" (mkWorld 5000 [])
    = Returns (user', Ok 7%nat) (mkWorld 5000 [NewImpersonationClientset "user" "uid-1"]) /\
  (authzClient user' = Some 7%nat /\
   forall c2 token2 w2,
     getImpersonationClientSet exampleEnv c2 user' token2 w2 = Returns (user', Ok 7%nat) w2).
Proof.
  cbv zeta.
  assert (Hrun : getImpersonationClientSet exampleEnv (cache (exampleStore emptyUserData))
                   emptyUserData "token" (mkWorld 5000 [])
                 = Returns (set_authzClient (Some 7%nat) emptyUserData, Ok 7%nat)
                     (mkWorld 5000 [NewImpersonationClientset "user" "uid-1"]))
    by reflexivity.
  split; [exact Hrun|].
  exact (getImpersonationClientSet_reuses exampleEnv _ _ _ _ _ _ _ Hrun).
Defined.

Lemma getManagedClusters_lists_witness :
  let w := mkWorld 5000 [] in
  clustersCached exampleEnv (clock w) emptyUserData = false /\
  newClientset exampleEnv = None /\
  exists user',
    getManagedClusters exampleEnv emptyUserData w
      = Returns (user', (managedClusters user', None)) (afterListing exampleEnv w) /\
    (forall ns, is_Some (managedClusters user' !! ns) <->
       exists namespace, In namespace (fst (listNamespaces exampleEnv)) /\
                         Name namespace = ns /\ isManagedCluster namespace) /\
    (forall ns v, managedClusters user' !! ns = Some v ->
       Contains v "managedCluster" = true /\
       exists namespace, In namespace (fst (listNamespaces exampleEnv)) /\
                         Name namespace = ns /\ is_Some (Labels namespace !! v)) /\
    clustersUpdatedAt user' = clock (afterListing exampleEnv w) /\
    clustersErr user' = None.
Proof.
  cbv zeta. split; [reflexivity|]. split; [reflexivity|].
  exact (getManagedClusters_lists exampleEnv emptyUserData (mkWorld 5000 [])
           eq_refl eq_refl).
Defined.

Lemma GetUserData_frame_witness :
  match GetUserData exampleEnv (exampleStore (exampleUser 0 0 0)) "token" None
          (mkWorld (100000 * Millisecond) []) with
  | Returns (s', l, err) w' =>
      exists info,
        tokenReviews (cache (exampleStore (exampleUser 0 0 0))) !! "token" = Some info /\
        tokenReviews (cache s') = tokenReviews (cache (exampleStore (exampleUser 0 0 0))) /\
        shared (cache s') = shared (cache (exampleStore (exampleUser 0 0 0))) /\
        (forall uid, uid <> UID info ->
           users (cache s') !! uid
           = users (cache (exampleStore (exampleUser 0 0 0))) !! uid) /\
        (forall l0, is_Some (heap (exampleStore (exampleUser 0 0 0)) !! l0) ->
           heap s' !! l0 = heap (exampleStore (exampleUser 0 0 0)) !! l0) /\
        users (cache s') !! UID info = Some l /\
        is_Some (heap s' !! l)
  | Panics => False
  end.
Proof.
  destruct (GetUserData exampleEnv (exampleStore (exampleUser 0 0 0)) "token" None
              (mkWorld (100000 * Millisecond) [])) as [[[s' l] err] w'|] eqn:Hrun.
  - exact (GetUserData_frame _ _ _ _ _ _ _ _ _ Hrun).
  - vm_compute in Hrun. discriminate Hrun.
Defined.

Lemma getNamespacedResources_listed_only_witness :
  let c := cache (exampleStore emptyUserData) in
  let w := mkWorld 5000 [] in
  let w' := mkWorld 5000 [NewClientset; ListNamespaces;
                          NewImpersonationClientset "user" "uid-1";
                          CreateRulesReview 7%nat "cluster-a"] in
  getNamespacedResources exampleEnv c emptyUserData "token" w
    = Returns (exampleRefreshed, None) w' /\
  (nsResources exampleRefreshed = nsResources emptyUserData \/
   exists client,
     authzClient exampleRefreshed = Some client /\
     listedOnly exampleEnv client (nsResources exampleRefreshed)).
Proof.
  cbv zeta.
  assert (Hrun : getNamespacedResources exampleEnv (cache (exampleStore emptyUserData))
                   emptyUserData "token" (mkWorld 5000 [])
                 = Returns (exampleRefreshed, None)
                     (mkWorld 5000 [NewClientset; ListNamespaces;
                                    NewImpersonationClientset "user" "uid-1";
                                    CreateRulesReview 7%nat "cluster-a"]))
    by (vm_compute; reflexivity).
  split; [exact Hrun|].
  exact (getNamespacedResources_listed_only exampleEnv _ _ _ _ (exampleRefreshed, None) _ Hrun).
Defined.

Definition unsyncedStore : Store :=
  mkStore (mkCache (<["token" := mkUserInfo "user" "uid-1"]> ∅) ∅
                   (mkSharedData [] (Some "namespaces not loaded") []))
          ∅.

Lemma GetUserData_no_shared_namespaces_witness :
  let w := mkWorld 5000 [] in
  let info := mkUserInfo "user" "uid-1" in
  tokenReviews (cache unsyncedStore) !! "token" = Some info /\
  users (cache unsyncedStore) !! UID info = None /\
  newClientset exampleEnv = None /\
  namespaces (shared (cache unsyncedStore)) = [] /\
  nsErr (shared (cache unsyncedStore)) = Some "namespaces not loaded" /\
  exists s' user',
    GetUserData exampleEnv unsyncedStore "token" None w
      = Returns (s', newLoc (heap unsyncedStore), Some "namespaces not loaded")
                (afterListing exampleEnv w) /\
    heap s' !! newLoc (heap unsyncedStore) = Some user' /\
    users (cache s') !! UID info = Some (newLoc (heap unsyncedStore)) /\
    csResources user' = [] /\ nsResources user' = ∅ /\
    csrUpdatedAt user' = zeroTime /\ nsrUpdatedAt user' = zeroTime /\
    authzClient user' = None.
Proof.
  cbv zeta. split; [reflexivity|]. split; [reflexivity|]. split; [reflexivity|].
  split; [reflexivity|]. split; [reflexivity|].
  exact (GetUserData_no_shared_namespaces exampleEnv unsyncedStore "token" None
           (mkWorld 5000 []) (mkUserInfo "user" "uid-1") "namespaces not loaded"
           eq_refl eq_refl eq_refl eq_refl eq_refl).
Defined.

Lemma refreshUserData_update_times_witness :
  let c := cache (exampleStore emptyUserData) in
  let w := mkWorld 5000 [] in
  match refreshUserData exampleEnv c emptyUserData "token" w with
  | Returns r w' =>
      clock w <= clock w' /\
      stampKept w w' (clustersUpdatedAt emptyUserData) (clustersUpdatedAt (fst r)) /\
      stampKept w w' (nsrUpdatedAt emptyUserData) (nsrUpdatedAt (fst r)) /\
      stampKept w w' (csrUpdatedAt emptyUserData) (csrUpdatedAt (fst r))
  | Panics => False
  end.
Proof.
  cbv zeta.
  destruct (refreshUserData exampleEnv (cache (exampleStore emptyUserData)) emptyUserData
              "token" (mkWorld 5000 [])) as [r w'|] eqn:Hrun.
  - exact (refreshUserData_update_times _ _ _ _ _ _ _ Hrun).
  - vm_compute in Hrun. discriminate Hrun.
Defined.

End rbac.

(** ** pkg/resolver/searchComplete.go: the post-processing of the results

    [searchCompleteResults] runs the query and shapes the values it read:
    numbers are reduced to their range, dates to a marker.  The query of
    the pool is answered by its outcome: an error, or the rows, each of
    which scans into a string or fails to scan. *)
Module searchComplete.

Import resolver.

Local Open Scope Z_scope.

(** *** strconv.Atoi *)

Definition digit (c : ascii) : option Z :=
  let n := Z.of_N (N_of_ascii c) - 48 in
  if (0 <=? n) && (n <=? 9) then Some n else None.

Fixpoint digits (acc : Z) (s : string) : option Z :=
  match s with
  | EmptyString => Some acc
  | String c rest =>
      match digit c with
      | Some d => digits (acc * 10 + d) rest
      | None => None
      end
  end.

(** [strconv.Atoi]: an optional sign and one or more decimal digits.  The
    value is 0 with a syntax error, and the nearest 64-bit integer with a
    range error. *)
Definition Atoi (s : string) : Z * option error :=
  match s with
  | EmptyString => (0, Some "invalid syntax"%string)
  | String c rest =>
      let neg := Ascii.eqb c "-" in
      let body := if Ascii.eqb c "-" || Ascii.eqb c "+" then rest else s in
      match body with
      | EmptyString => (0, Some "invalid syntax"%string)
      | _ =>
          match digits 0 body with
          | None => (0, Some "invalid syntax"%string)
          | Some un =>
              if negb neg && (2 ^ 63 <=? un) then (2 ^ 63 - 1, Some "value out of range"%string)
              else if neg && (2 ^ 63 <? un) then (- 2 ^ 63, Some "value out of range"%string)
              else (if neg then - un else un, None)
          end
      end
  end.

Section results.

(** [time.Parse(time.RFC3339, val)] succeeds. *)
Variable parsesRFC3339 : string -> bool.

(** check if a given string is of type date *)
Definition isDate (vals : list string) : bool := forallb parsesRFC3339 vals.

(** check if a given string is of type number (int) *)
Definition isNumber (vals : list string) : bool :=
  forallb (fun val => match snd (Atoi val) with None => true | Some _ => false end) vals.

(** The order of the [sort.Slice] of [searchCompleteResults]. *)
Definition numberLe (a b : string) : Prop := fst (Atoi a) <= fst (Atoi b).

#[local] Instance numberLe_dec : RelDecision numberLe.
Proof. intros a b. unfold numberLe. apply _. Defined.

(** [sort.Slice] by the number the strings stand for.  [sort.Slice] is not
    stable and leaves the order of equal numbers open; the model sorts by
    merging. *)
Definition sortByNumber (vals : list string) : list string := merge_sort numberLe vals.

(** [searchCompleteResults] for the outcome of the query; a row that does
    not scan leaves the empty string. *)
Definition searchCompleteResults (queried : result (list (option string)))
    : list string * option error :=
  match queried with
  | Err err => ([], Some err)
  | Ok rows =>
      let srchCompleteOut := List.map (default EmptyString) rows in
      let isNum := isNumber srchCompleteOut in
      let srchCompleteOut :=
        if isNum then
          let sorted := sortByNumber srchCompleteOut in
          if Nat.ltb 1 (length sorted) then
            ["isNumber"%string; List.hd EmptyString sorted; List.last sorted EmptyString]
          else "isNumber"%string :: sorted
        else srchCompleteOut in
      let srchCompleteOut :=
        if negb isNum && isDate srchCompleteOut then ["isDate"%string]
        else srchCompleteOut in
      (srchCompleteOut, None)
  end.

#[local] Instance numberLe_total : Total numberLe.
Proof. intros a b. unfold numberLe. lia. Qed.

#[local] Instance numberLe_trans : Transitive numberLe.
Proof. intros a b c. unfold numberLe. lia. Qed.

Lemma StronglySorted_hd_last (l : list string) :
  StronglySorted numberLe l ->
  forall x, In x l ->
    numberLe (List.hd EmptyString l) x /\ numberLe x (List.last l EmptyString).
Proof.
  induction 1 as [|a l Hsorted IH Hall]; intros x Hin; [destruct Hin|].
  rewrite List.Forall_forall in Hall. cbn [List.hd]. split.
  - destruct Hin as [<-|Hin]; [unfold numberLe; lia|apply Hall, Hin].
  - destruct l as [|b l]; [destruct Hin as [<-|[]]; unfold numberLe; cbn; lia|].
    change (List.last (a :: b :: l) EmptyString) with (List.last (b :: l) EmptyString).
    destruct Hin as [<-|Hin]; [|apply IH, Hin].
    transitivity b; [apply Hall; left; reflexivity|].
    apply IH. left. reflexivity.
Qed.

Lemma hd_last_In (l : list string) :
  l <> [] -> In (List.hd EmptyString l) l /\ In (List.last l EmptyString) l.
Proof.
  intros Hne. destruct l as [|a l]; [destruct Hne; reflexivity|]. split; [left; reflexivity|].
  clear Hne. revert a. induction l as [|b l IH]; intros a; [left; reflexivity|].
  right. apply IH.
Qed.

(** X20.  When the query returns two or more values that all parse as
    integers, [searchCompleteResults] returns three strings: "isNumber",
    one of the values with the least number and one of the values with
    the greatest number.  With fewer than two values (none included) it
    returns "isNumber" followed by the values. *)
Theorem searchCompleteResults_numbers (rows : list (option string)) :
  let vals := List.map (default EmptyString) rows in
  isNumber vals = true ->
  (length vals <= 1)%nat /\
    searchCompleteResults (Ok rows) = ("isNumber"%string :: vals, None) \/
  (2 <= length vals)%nat /\
    exists lo hi,
      searchCompleteResults (Ok rows) = (["isNumber"%string; lo; hi], None) /\
      In lo vals /\ In hi vals /\
      forall v, In v vals -> fst (Atoi lo) <= fst (Atoi v) <= fst (Atoi hi).
Proof.
  intros vals Hnum. unfold searchCompleteResults. fold vals. rewrite Hnum. cbn [negb andb].
  assert (Hperm : sortByNumber vals ≡ₚ vals) by apply merge_sort_Permutation.
  assert (Hlen : length (sortByNumber vals) = length vals) by (rewrite Hperm; reflexivity).
  rewrite Hlen. destruct (Nat.ltb 1 (length vals)) eqn:Hlt.
  - right. apply Nat.ltb_lt in Hlt. split; [lia|].
    assert (Hsorted : StronglySorted numberLe (sortByNumber vals))
      by (apply StronglySorted_merge_sort; apply _).
    assert (Hne : sortByNumber vals <> []).
    { intros Hnil. rewrite Hnil in Hlen. cbn in Hlen. lia. }
    destruct (hd_last_In _ Hne) as [Hhd Hlast].
    exists (List.hd EmptyString (sortByNumber vals)),
           (List.last (sortByNumber vals) EmptyString).
    split; [reflexivity|].
    split; [apply (Permutation_in _ Hperm), Hhd|].
    split; [apply (Permutation_in _ Hperm), Hlast|].
    intros v Hv. apply (Permutation_in _ (Permutation_sym Hperm)) in Hv.
    apply (StronglySorted_hd_last _ Hsorted v Hv).
  - left. apply Nat.ltb_ge in Hlt. split; [exact Hlt|].
    assert (Hsame : sortByNumber vals = vals).
    { destruct vals as [|a [|b l]]; [reflexivity|reflexivity|cbn in Hlt; lia]. }
    rewrite Hsame. reflexivity.
Qed.

(** When some value does not parse as an integer,
    [searchCompleteResults] returns the single string "isDate" if every
    value parses as a date, and otherwise the values as they were read,
    in order; a row that did not scan is read as the empty string.  It
    returns an error only when the query itself fails, and then no
    value. *)
Theorem searchCompleteResults_not_numbers (rows : list (option string)) :
  let vals := List.map (default EmptyString) rows in
  isNumber vals = false ->
  searchCompleteResults (Ok rows)
  = (if isDate vals then ["isDate"%string] else vals, None) /\
  forall err, searchCompleteResults (Err err) = ([], Some err).
Proof.
  intros vals Hnum. unfold searchCompleteResults. fold vals. rewrite Hnum.
  cbn [negb andb]. split; [destruct (isDate vals); reflexivity|reflexivity].
Qed.

End results.

Example Atoi_examples :
  Atoi "42" = (42, None) /\ Atoi "-7" = (-7, None) /\ Atoi "+15" = (15, None) /\
  snd (Atoi "") <> None /\ snd (Atoi "-") <> None /\ snd (Atoi "12a") <> None /\
  snd (Atoi "1_000") <> None /\
  Atoi "9223372036854775807" = (9223372036854775807, None) /\
  Atoi "9223372036854775808" = (9223372036854775807, Some "value out of range"%string) /\
  Atoi "-9223372036854775808" = (-9223372036854775808, None).
Proof. vm_compute. repeat split; try reflexivity; discriminate. Qed.

Lemma searchCompleteResults_numbers_witness :
  let rows := [Some "10"; Some "-3"; Some "7"]%string in
  let vals := List.map (default EmptyString) rows in
  isNumber vals = true /\
  ((length vals <= 1)%nat /\
     searchCompleteResults (fun _ => false) (Ok rows) = ("isNumber"%string :: vals, None) \/
   (2 <= length vals)%nat /\
     exists lo hi,
       searchCompleteResults (fun _ => false) (Ok rows)
         = (["isNumber"%string; lo; hi], None) /\
       In lo vals /\ In hi vals /\
       forall v, In v vals -> fst (Atoi lo) <= fst (Atoi v) <= fst (Atoi hi)).
Proof.
  cbv zeta. split; [reflexivity|].
  apply (searchCompleteResults_numbers (fun _ => false)
           [Some "10"; Some "-3"; Some "7"]%string). reflexivity.
Defined.

Lemma searchCompleteResults_not_numbers_witness :
  let parses := fun s => String.eqb s "2022-01-01T17:17:09Z" in
  let rows := [Some "2022-01-01T17:17:09Z"; None]%string in
  let vals := List.map (default EmptyString) rows in
  isNumber vals = false /\
  (searchCompleteResults parses (Ok rows)
   = (if isDate parses vals then ["isDate"%string] else vals, None) /\
   forall err, searchCompleteResults parses (Err err) = ([], Some err)).
Proof.
  cbv zeta. split; [reflexivity|].
  apply (searchCompleteResults_not_numbers
           (fun s => String.eqb s "2022-01-01T17:17:09Z")
           [Some "2022-01-01T17:17:09Z"; None]%string). reflexivity.
Defined.

Example searchCompleteResults_examples :
  searchCompleteResults (fun _ => false) (Ok [Some "10"; Some "-3"; Some "7"]%string)
    = (["isNumber"; "-3"; "10"]%string, None) /\
  searchCompleteResults (fun _ => false) (Ok []) = (["isNumber"%string], None) /\
  searchCompleteResults (fun _ => true) (Ok [Some "2022-01-01T17:17:09Z"]%string)
    = (["isDate"%string], None) /\
  searchCompleteResults (fun _ => false) (Ok [Some "pods"; None; Some "nodes"]%string)
    = (["pods"; ""; "nodes"]%string, None).
Proof. vm_compute. repeat split; reflexivity. Qed.

End searchComplete.
